(** * Session runner: SDK configuration loader and credential orchestration

    A shallow embedding of [sdk_config.py] (class [SDKConfigLoader]) and of
    the credential / git-identity / OAuth-classification policies that the
    runner's test-suite exercises.

    Python values are dynamically typed, so the embedding keeps a universe
    [value] of the values [json.loads] can produce; dictionaries are ordered
    association lists (Python dictionaries iterate in insertion order);
    exceptions are an explicit [outcome]; the objects that the code mutates
    through a reference (the MCP server map) live in a store. *)

From Stdlib Require Import ZArith String Ascii List Bool PrimFloat.
From stdpp Require Import gmap strings list fin_maps pretty.

Local Open Scope string_scope.
#[local] Set Warnings "-register-all".

(** ** Python values *)

Inductive value : Type :=
| VNone
| VBool (b : bool)
| VInt (z : Z)
| VFloat (f : float)
| VStr (s : string)
| VList (l : list value)
| VDict (d : list (string * value)).

Abbreviation pydict := (list (string * value)).

(** [bool(v)]: the truth value Python gives to [v]. *)
Definition truthy (v : value) : bool :=
  match v with
  | VNone => false
  | VBool b => b
  | VInt z => negb (z =? 0)%Z
  | VFloat f => negb (PrimFloat.eqb f 0%float)
  | VStr s => negb (String.eqb s "")
  | VList l => match l with [] => false | _ => true end
  | VDict d => match d with [] => false | _ => true end
  end.

(** [v is not None] *)
Definition is_not_None (v : value) : bool :=
  match v with VNone => false | _ => true end.

(** ** Exceptions *)

Inductive exn : Type :=
| AttributeError | KeyError | TypeError | ValueError
| URLError | HTTPError (code : Z) | TimeoutError
| UnicodeDecodeError | JSONDecodeError
| KeyboardInterrupt | SystemExit | CancelledError.

(** [isinstance(e, Exception)]: the last three derive from [BaseException]
    only and pass through [except Exception]. *)
Definition is_Exception (e : exn) : bool :=
  match e with
  | KeyboardInterrupt | SystemExit | CancelledError => false
  | _ => true
  end.

Inductive outcome (A : Type) : Type :=
| Return (a : A)
| Raise (e : exn).
Arguments Return {A} a.
Arguments Raise {A} e.

Definition obind {A B} (m : outcome A) (k : A -> outcome B) : outcome B :=
  match m with
  | Return a => k a
  | Raise e => Raise e
  end.

Declare Scope py_scope.
Delimit Scope py_scope with py.
Notation "x <~ m ;; k" := (obind m (fun x => k))
  (at level 100, m at next level, right associativity) : py_scope.
Local Open Scope py_scope.

(** [try: body / except Exception: handler], where both produce an [A]. *)
Definition try_except {A} (body : outcome A) (handler : exn -> outcome A) : outcome A :=
  match body with
  | Return a => Return a
  | Raise e => if is_Exception e then handler e else Raise e
  end.

(** ** Dictionaries *)

Fixpoint dict_lookup (d : pydict) (k : string) : option value :=
  match d with
  | [] => None
  | (k', v) :: d' => if String.eqb k' k then Some v else dict_lookup d' k
  end.

(** [d[k] = v]: replaces in place or appends at the end. *)
Fixpoint dict_set (d : pydict) (k : string) (v : value) : pydict :=
  match d with
  | [] => [(k, v)]
  | (k', v') :: d' =>
      if String.eqb k' k then (k', v) :: d' else (k', v') :: dict_set d' k v
  end.

(** [d.get(k, dflt)] *)
Definition dict_get (d : pydict) (k : string) (dflt : value) : value :=
  match dict_lookup d k with
  | Some v => v
  | None => dflt
  end.

(** [d[k]] *)
Definition dict_item (d : pydict) (k : string) : outcome value :=
  match dict_lookup d k with
  | Some v => Return v
  | None => Raise KeyError
  end.

(** [v.get(k, dflt)] on an arbitrary value: only dictionaries have [get]. *)
Definition attr_get (v : value) (k : string) (dflt : value) : outcome value :=
  match v with
  | VDict d => Return (dict_get d k dflt)
  | _ => Raise AttributeError
  end.

(** ** Strings *)

Definition nl : string := String "010"%char "".

(** [s.startswith(p)] *)
Definition startswith (s p : string) : bool := String.prefix p s.

(** [t.startswith('mcp__')] on an arbitrary value. *)
Definition value_startswith (t : value) (p : string) : outcome bool :=
  match t with
  | VStr s => Return (startswith s p)
  | _ => Raise AttributeError
  end.

Definition chars_of (s : string) : list value :=
  map (fun a => VStr (String a "")) (list_ascii_of_string s).

(** [iter(v)]: the elements a [for] loop or a comprehension visits. *)
Definition py_iter (v : value) : outcome (list value) :=
  match v with
  | VList l => Return l
  | VStr s => Return (chars_of s)
  | VDict d => Return (map (fun kv => VStr (fst kv)) d)
  | _ => Raise TypeError
  end.

(** [a + b] where [b] is a list. *)
Definition add_list (a : value) (b : list value) : outcome value :=
  match a with
  | VList l => Return (VList (l ++ b))
  | _ => Raise TypeError
  end.

(** [[t for t in l if t.startswith(p)]] *)
Fixpoint comprehension_startswith (l : list value) (p : string) : outcome (list value) :=
  match l with
  | [] => Return []
  | t :: l' =>
      b <~ value_startswith t p ;;
      r <~ comprehension_startswith l' p ;;
      Return (if b then t :: r else r)
  end.

(** [str(v)] as an f-string field renders it.  How Python prints a float
    and how it quotes a string inside a container are left to the runtime
    ([float_repr], [str_repr]); nothing below depends on them. *)
Section Formatting.
Context (float_repr : float -> string) (str_repr : string -> string).

Fixpoint py_repr (v : value) : string :=
  match v with
  | VNone => "None"
  | VBool b => if b then "True" else "False"
  | VInt z => pretty z
  | VFloat f => float_repr f
  | VStr s => str_repr s
  | VList l => "[" +:+ String.concat ", " (map py_repr l) +:+ "]"
  | VDict d =>
      "{" +:+ String.concat ", "
               (map (fun kv => let '(k, x) := kv in str_repr k +:+ ": " +:+ py_repr x) d)
          +:+ "}"
  end.

Definition py_str (v : value) : string :=
  match v with
  | VStr s => s
  | _ => py_repr v
  end.
End Formatting.

(** ** [ClaudeAgentOptions]

    The attributes [apply_to_options] reads or assigns.  An assignment stores
    whatever value the configuration holds, so every field is a [value]. *)

Record ClaudeAgentOptions : Type := mkOptions {
  model : value;
  max_tokens : value;
  temperature : value;
  permission_mode : value;
  allowed_tools : value;
  include_partial_messages : value;
  system_prompt : value
}.

Definition set_model (v : value) (o : ClaudeAgentOptions) : ClaudeAgentOptions :=
  mkOptions v (max_tokens o) (temperature o) (permission_mode o)
            (allowed_tools o) (include_partial_messages o) (system_prompt o).
Definition set_max_tokens (v : value) (o : ClaudeAgentOptions) : ClaudeAgentOptions :=
  mkOptions (model o) v (temperature o) (permission_mode o)
            (allowed_tools o) (include_partial_messages o) (system_prompt o).
Definition set_temperature (v : value) (o : ClaudeAgentOptions) : ClaudeAgentOptions :=
  mkOptions (model o) (max_tokens o) v (permission_mode o)
            (allowed_tools o) (include_partial_messages o) (system_prompt o).
Definition set_permission_mode (v : value) (o : ClaudeAgentOptions) : ClaudeAgentOptions :=
  mkOptions (model o) (max_tokens o) (temperature o) v
            (allowed_tools o) (include_partial_messages o) (system_prompt o).
Definition set_allowed_tools (v : value) (o : ClaudeAgentOptions) : ClaudeAgentOptions :=
  mkOptions (model o) (max_tokens o) (temperature o) (permission_mode o)
            v (include_partial_messages o) (system_prompt o).
Definition set_include_partial_messages (v : value) (o : ClaudeAgentOptions) : ClaudeAgentOptions :=
  mkOptions (model o) (max_tokens o) (temperature o) (permission_mode o)
            (allowed_tools o) v (system_prompt o).
Definition set_system_prompt (v : value) (o : ClaudeAgentOptions) : ClaudeAgentOptions :=
  mkOptions (model o) (max_tokens o) (temperature o) (permission_mode o)
            (allowed_tools o) (include_partial_messages o) v.

(** ** [SDKConfigLoader.apply_to_options]

    Each block of the method is [if <guard>: try: <body> except Exception:
    log].  A block is a function from the options before to the options
    after; [guarded] keeps the options when the body raises an [Exception]
    and lets anything else through.  The [logger] calls write no state the
    method reads and format values that can always be formatted, so they
    are not part of the state. *)

Definition guarded (o : ClaudeAgentOptions) (body : outcome ClaudeAgentOptions)
  : outcome ClaudeAgentOptions :=
  try_except body (fun _ => Return o).

Definition get (config : pydict) (k : string) : value := dict_get config k VNone.

Definition apply_model (config : pydict) (o : ClaudeAgentOptions)
  : outcome ClaudeAgentOptions :=
  if truthy (get config "model") then
    guarded o (v <~ dict_item config "model" ;; Return (set_model v o))
  else Return o.

Definition apply_max_tokens (config : pydict) (o : ClaudeAgentOptions)
  : outcome ClaudeAgentOptions :=
  if truthy (get config "maxTokens") then
    guarded o (v <~ dict_item config "maxTokens" ;; Return (set_max_tokens v o))
  else Return o.

Definition apply_temperature (config : pydict) (o : ClaudeAgentOptions)
  : outcome ClaudeAgentOptions :=
  if is_not_None (get config "temperature") then
    guarded o (v <~ dict_item config "temperature" ;; Return (set_temperature v o))
  else Return o.

Definition apply_permission_mode (config : pydict) (o : ClaudeAgentOptions)
  : outcome ClaudeAgentOptions :=
  if truthy (get config "permissionMode") then
    guarded o (v <~ dict_item config "permissionMode" ;; Return (set_permission_mode v o))
  else Return o.

Definition mcp_prefix : string := "mcp__".

Definition apply_allowed_tools (config : pydict) (o : ClaudeAgentOptions)
  : outcome ClaudeAgentOptions :=
  if truthy (get config "allowedTools") then
    guarded o
      (ts <~ py_iter (allowed_tools o) ;;
       existing_mcp_tools <~ comprehension_startswith ts mcp_prefix ;;
       new <~ dict_item config "allowedTools" ;;
       merged <~ add_list new existing_mcp_tools ;;
       Return (set_allowed_tools merged o))
  else Return o.

Definition apply_include_partial_messages (config : pydict) (o : ClaudeAgentOptions)
  : outcome ClaudeAgentOptions :=
  if is_not_None (get config "includePartialMessages") then
    guarded o (v <~ dict_item config "includePartialMessages" ;;
               Return (set_include_partial_messages v o))
  else Return o.

(** The [continueConversation] block is [try: pass]. *)
Definition apply_continue_conversation (config : pydict) (o : ClaudeAgentOptions)
  : outcome ClaudeAgentOptions :=
  if is_not_None (get config "continueConversation") then guarded o (Return o)
  else Return o.

Definition custom_heading : string := nl +:+ nl +:+ "## Custom Instructions" +:+ nl.

Section Apply.
Context (float_repr : float -> string) (str_repr : string -> string).

Definition fmt : value -> string := py_str float_repr str_repr.

Definition apply_system_prompt (config : pydict) (o : ClaudeAgentOptions)
  : outcome ClaudeAgentOptions :=
  if truthy (get config "systemPrompt") then
    guarded o
      (existing_prompt <~ (if truthy (system_prompt o)
                           then attr_get (system_prompt o) "text" (VStr "")
                           else Return (VStr "")) ;;
       custom_prompt <~ dict_item config "systemPrompt" ;;
       let merged_prompt := fmt existing_prompt +:+ custom_heading +:+ fmt custom_prompt in
       Return (set_system_prompt
                 (VDict [("type", VStr "text"); ("text", VStr merged_prompt)]) o))
  else Return o.

Definition apply_to_options (options : ClaudeAgentOptions) (config : pydict)
  : outcome ClaudeAgentOptions :=
  if negb (truthy (VDict config)) then Return options
  else
    o <~ apply_model config options ;;
    o <~ apply_max_tokens config o ;;
    o <~ apply_temperature config o ;;
    o <~ apply_permission_mode config o ;;
    o <~ apply_allowed_tools config o ;;
    o <~ apply_include_partial_messages config o ;;
    o <~ apply_continue_conversation config o ;;
    apply_system_prompt config o.
End Apply.

(** ** The object store

    [merge_mcp_servers] receives the server map by reference and may return
    that same reference, so server maps live in a store.  The declarations
    a server map already holds are never written through by the method (it
    only completes the declaration it has just stored); they are kept by
    value. *)

Abbreviation loc := positive.
Abbreviation store := (gmap loc pydict).

(** Computations that read and write the store and may raise. *)
Definition M (A : Type) : Type := store -> outcome A * store.

Definition ret {A} (a : A) : M A := fun h => (Return a, h).

Definition bind {A B} (m : M A) (k : A -> M B) : M B :=
  fun h =>
    match m h with
    | (Return a, h') => k a h'
    | (Raise e, h') => (Raise e, h')
    end.

Definition lift {A} (r : outcome A) : M A := fun h => (r, h).

Notation "x <- m ;;; k" := (bind m (fun x => k))
  (at level 100, m at next level, right associativity) : py_scope.

(** [d.copy()]: a new dictionary object with the same items.  A reference
    always designates an object in Python; the [None] branch is only there
    to make the function total. *)
Definition copy (l : loc) : M loc :=
  fun h =>
    match h !! l with
    | Some d => let l' := fresh (dom h) in (Return l', <[l' := d]> h)
    | None => (Raise ValueError, h)
    end.

(** [l[k] = v] *)
Definition setitem (l : loc) (k : string) (v : value) : M unit :=
  fun h => (Return tt, alter (fun d => dict_set d k v) l h).

(** [l[name][k] = v], for the declaration stored under [name]. *)
Definition setitem_in (l : loc) (name k : string) (v : value) : M unit :=
  fun h =>
    match h !! l with
    | Some d =>
        match dict_lookup d name with
        | Some (VDict decl) =>
            (Return tt, <[l := dict_set d name (VDict (dict_set decl k v))]> h)
        | Some _ => (Raise TypeError, h)
        | None => (Raise KeyError, h)
        end
    | None => (Raise ValueError, h)
    end.

(** [v[k]] with a string key. *)
Definition value_item (v : value) (k : string) : outcome value :=
  match v with
  | VDict d => dict_item d k
  | _ => Raise TypeError
  end.

(** [v.items()] *)
Definition items (v : value) : outcome pydict :=
  match v with
  | VDict d => Return d
  | _ => Raise AttributeError
  end.

(** A [for] loop whose body may raise: the first exception ends it. *)
Fixpoint for_each {A} (l : list A) (body : A -> M unit) : M unit :=
  match l with
  | [] => ret tt
  | a :: l' => _ <- body a ;;; for_each l' body
  end.

(** ** [SDKConfigLoader.merge_mcp_servers] *)

(** The body of the loop, for one [(name, server_config)]. *)
Definition merge_entry (merged : loc) (entry : string * value) : M unit :=
  let '(name, server_config) := entry in
  enabled <- lift (attr_get server_config "enabled" (VBool true)) ;;;
  if negb (truthy enabled) then ret tt
  else
    command <- lift (value_item server_config "command") ;;;
    args <- lift (attr_get server_config "args" (VList [])) ;;;
    _ <- setitem merged name (VDict [("command", command); ("args", args)]) ;;;
    env <- lift (attr_get server_config "env" VNone) ;;;
    if truthy env then
      env' <- lift (value_item server_config "env") ;;;
      setitem_in merged name "env" env'
    else ret tt.

Definition merge_mcp_servers (existing_servers : loc) (config : pydict) : M loc :=
  if negb (truthy (VDict config)) || negb (truthy (get config "mcpServers"))
  then ret existing_servers
  else
    merged <- copy existing_servers ;;;
    servers <- lift (dict_item config "mcpServers") ;;;
    entries <- lift (items servers) ;;;
    _ <- for_each entries (merge_entry merged) ;;;
    ret merged.

(** The dictionary a reference designates after a run. *)
Definition deref (h : store) (l : loc) : pydict := default [] (h !! l).

(** ** [SDKConfigLoader.__init__] and [load_configuration] *)

Definition drop_while {A} (p : A -> bool) : list A -> list A :=
  fix go l :=
    match l with
    | [] => []
    | a :: l' => if p a then go l' else l
    end.

Definition lstrip_chars (p : ascii -> bool) (s : string) : string :=
  string_of_list_ascii (drop_while p (list_ascii_of_string s)).

Definition rstrip_chars (p : ascii -> bool) (s : string) : string :=
  string_of_list_ascii (rev (drop_while p (rev (list_ascii_of_string s)))).

(** [s.rstrip('/')] *)
Definition rstrip_slash : string -> string := rstrip_chars (Ascii.eqb "/"%char).

(** The characters [str.strip()] removes, among the first 128: tab, line
    feed, vertical tab, form feed, carriage return, the four separators
    0x1c..0x1f and the space. *)
Definition is_space (a : ascii) : bool :=
  let n := nat_of_ascii a in
  (((9 <=? n) && (n <=? 13)) || ((28 <=? n) && (n <=? 32)))%nat.

(** [s.strip()] *)
Definition strip (s : string) : string := rstrip_chars is_space (lstrip_chars is_space s).

(** [os.getenv(k, dflt)] *)
Definition getenv (environ : gmap string string) (k dflt : string) : string :=
  default dflt (environ !! k).

Record SDKConfigLoader : Type := mkLoader {
  session_id : string;
  project_name : string;
  backend_url : string;
  bot_token : string
}.

Definition SDKConfigLoader_init (environ : gmap string string)
    (session_id project_name : string) : SDKConfigLoader :=
  mkLoader session_id project_name
           (rstrip_slash (getenv environ "BACKEND_API_URL" ""))
           (strip (getenv environ "BOT_TOKEN" "")).

(** [len(v)] *)
Definition py_len (v : value) : outcome Z :=
  match v with
  | VStr s => Return (Z.of_nat (String.length s))
  | VList l => Return (Z.of_nat (length l))
  | VDict d => Return (Z.of_nat (length d))
  | _ => Raise TypeError
  end.

Section Load.
(** The control plane and the Python library, as the method sees them:
    [http_get url headers] stands for building the [Request], adding the
    header, [urlopen(req, timeout=10)] and [resp.read()]; [decode_utf8]
    for [bytes.decode('utf-8')]; [json_loads] for [json.loads]. *)
Context (http_get : string -> list (string * string) -> outcome (list Byte.byte))
        (decode_utf8 : list Byte.byte -> outcome string)
        (json_loads : string -> outcome value).

Definition configuration_url (self : SDKConfigLoader) : string :=
  backend_url self +:+ "/api/projects/" +:+ project_name self
    +:+ "/sdk/configuration/session/" +:+ session_id self.

Definition request_headers (self : SDKConfigLoader) : list (string * string) :=
  if truthy (VStr (bot_token self))
  then [("Authorization", "Bearer " +:+ bot_token self)]
  else [].

(** The body of the [try] block.  Its last steps before [return config]
    are the ones the [logger.info] f-string evaluates:
    [config.get('model')] and [len(config.get('allowedTools', []))]. *)
Definition load_configuration_try (self : SDKConfigLoader) : outcome value :=
  resp <~ http_get (configuration_url self) (request_headers self) ;;
  data <~ decode_utf8 resp ;;
  config <~ json_loads data ;;
  _ <~ attr_get config "model" VNone ;;
  tools <~ attr_get config "allowedTools" (VList []) ;;
  _ <~ py_len tools ;;
  Return config.

Definition load_configuration (self : SDKConfigLoader) : outcome value :=
  if negb (truthy (VStr (backend_url self))) then Return VNone
  else try_except (load_configuration_try self) (fun _ => Return VNone).
End Load.

(** * Credential and identity policies

    The functions below live in [auth.py] and [main.py], which the tests
    import and patch; their definitions follow the specification. *)

Record world : Type := mkWorld {
  environ : gmap string string;
  git_config : gmap string string;
  workspace_file : option string;
  secret_file : option string;
  warnings : list string
}.

Definition setenv (k v : string) (w : world) : world :=
  mkWorld (<[k := v]> (environ w)) (git_config w) (workspace_file w) (secret_file w)
          (warnings w).

Definition set_git_config (k v : string) (w : world) : world :=
  mkWorld (environ w) (<[k := v]> (git_config w)) (workspace_file w) (secret_file w)
          (warnings w).

Definition write_workspace_file (text : string) (w : world) : world :=
  mkWorld (environ w) (git_config w) (Some text) (secret_file w) (warnings w).

Definition log_warning (msg : string) (w : world) : world :=
  mkWorld (environ w) (git_config w) (workspace_file w) (secret_file w)
          (warnings w ++ [msg]).

(** ** GitIdentityConfigurator *)

(** What one invocation of the VCS tool can end in. *)
Inductive vcs_result : Type :=
| Persisted
| NonZeroExit (code : Z)
| TimedOut.

Definition default_git_user_name : string := "Ambient Code Bot".
Definition default_git_user_email : string := "bot@ambient-code.local".

Definition or_default (s dflt : string) : string :=
  if String.eqb s "" then dflt else s.

Section GitIdentity.
(** [vcs name email]: the attempt to persist [user.name] and [user.email]
    globally. *)
Context (vcs : string -> string -> vcs_result).

(** Modelled from the spec: [configure_git_identity] of [auth.py] (the
    GitIdentityConfigurator's [apply]), which is imported by
    [test_git_identity.py] but is not among the sources.  Steps 1 to 4 of
    the specification: trim, substitute the defaults, set the two
    environment variables, then invoke the VCS tool, whose failure is
    logged and does not propagate. *)
Definition configure_git_identity (userName email : string) (w : world)
  : outcome unit * world :=
  let name := or_default (strip userName) default_git_user_name in
  let mail := or_default (strip email) default_git_user_email in
  let w1 := setenv "GIT_USER_EMAIL" mail (setenv "GIT_USER_NAME" name w) in
  match vcs name mail with
  | Persisted =>
      (Return tt, set_git_config "user.email" mail (set_git_config "user.name" name w1))
  | NonZeroExit _ => (Return tt, log_warning "git config failed" w1)
  | TimedOut => (Return tt, log_warning "git config timed out" w1)
  end.
End GitIdentity.

(** ** OAuthInspector *)

Inductive AuthStatus : Type := Valid | NeedsRefresh | Invalid.

Definition placeholder_email : string := "user@example.com".

(** Case folding of the letters A..Z, enough to compare with the
    placeholder. *)
Definition lower_ascii (a : ascii) : ascii :=
  let n := nat_of_ascii a in
  if ((65 <=? n) && (n <=? 90))%nat then ascii_of_nat (n + 32) else a.

Definition lower (s : string) : string :=
  string_of_list_ascii (map lower_ascii (list_ascii_of_string s)).

Definition is_placeholder (e : string) : bool := String.eqb (lower e) placeholder_email.

(** [sub in s] *)
Fixpoint is_substring (sub s : string) : bool :=
  String.prefix sub s ||
  match s with
  | EmptyString => false
  | String _ s' => is_substring sub s'
  end.

Definition record_field (r : value) (k : string) : option value :=
  match r with
  | VDict d => dict_lookup d k
  | _ => None
  end.

Definition has_placeholder_email (r : value) : bool :=
  match record_field r "email" with
  | Some (VStr e) => is_placeholder e
  | _ => false
  end.

Definition missing_token (r : value) : bool :=
  match record_field r "access_token", record_field r "refresh_token" with
  | Some _, Some _ => false
  | _, _ => true
  end.

Definition empty_refresh_token (r : value) : bool :=
  match record_field r "refresh_token" with
  | Some v => negb (truthy v)
  | None => false
  end.

Inductive expiry : Type :=
| NoExpiry
| UnparseableExpiry
| ExpiresAt (t : Z).

(** The first key of the record map that is not the placeholder. *)
Fixpoint first_real_email (m : pydict) : option string :=
  match m with
  | [] => None
  | (k, _) :: m' => if is_placeholder k then first_real_email m' else Some k
  end.

Definition message (reason : string) (who : option string) : string :=
  match who with
  | Some e => reason +:+ " (" +:+ e +:+ ")"
  | None => reason
  end.

(** The copy the inspector reads: the workspace copy when it exists, the
    secret-mount copy otherwise. *)
Definition locate (w : world) : option string :=
  match workspace_file w with
  | Some text => Some text
  | None => secret_file w
  end.

Section OAuthInspector.
(** [parse_iso8601] reads an ISO-8601 timestamp (a trailing [Z] accepted)
    as seconds on some fixed time line, [now] is the current instant on
    it. *)
Context (json_loads : string -> outcome value)
        (parse_iso8601 : string -> option Z)
        (now : Z).

(** Modelled from the spec: the three states of [token_expiry] the decision
    table tells apart.  A JSON [null] expiry counts as absent; an expiry
    that is not a string cannot be parsed. *)
Definition expiry_of (r : value) : expiry :=
  match record_field r "token_expiry" with
  | None | Some VNone => NoExpiry
  | Some (VStr ts) =>
      match parse_iso8601 ts with
      | Some t => ExpiresAt t
      | None => UnparseableExpiry
      end
  | Some _ => UnparseableExpiry
  end.

Definition unparseable_expiry (r : value) : bool :=
  match expiry_of r with UnparseableExpiry => true | _ => false end.

Definition expired (r : value) : bool :=
  match expiry_of r with ExpiresAt t => (t <? now)%Z | _ => false end.

(** Modelled from the spec: the decision table of [classify]
    ([_check_mcp_authentication] of [main.py], imported by
    [test_google_auth.py] but not among the sources), read top to bottom,
    a row about records firing when some record of the map meets it.  An
    expiry equal to [now] is not strictly past and falls to the last
    rows; the specification gives no reason text for [Valid], only that
    the message names the primary email. *)
Definition classify_records (m : pydict) : AuthStatus * string :=
  let who := first_real_email m in
  let records := map snd m in
  if existsb has_placeholder_email records then (Invalid, message "placeholder" who)
  else if existsb missing_token records then (Invalid, message "incomplete" who)
  else if existsb empty_refresh_token records then (Invalid, message "empty" who)
  else if existsb unparseable_expiry records then
    (NeedsRefresh, message "invalid timestamp" who)
  else if existsb (fun r => expired r && negb (empty_refresh_token r)) records then
    (NeedsRefresh, message "refresh needed" who)
  else if existsb (fun r => expired r && empty_refresh_token r) records then
    (Invalid, message "empty" who)
  else (Valid, message "authenticated" who).

(** Modelled from the spec: the rows of [classify] about the file itself
    (absent or zero-byte, not JSON, not a mapping or an empty one), then
    [classify_records]. *)
Definition classify (w : world) : AuthStatus * string :=
  match locate w with
  | None => (Invalid, "not configured")
  | Some text =>
      if String.eqb text "" then (Invalid, "not configured")
      else
        match json_loads text with
        | Raise _ => (Invalid, "corrupted")
        | Return (VDict []) => (Invalid, "not configured")
        | Return (VDict m) => classify_records m
        | Return _ => (Invalid, "not configured")
        end
  end.

(** Modelled from the spec: [primary_email], the first non-placeholder
    email key of the record map, when there is a readable map. *)
Definition primary_email (w : world) : option string :=
  match locate w with
  | None => None
  | Some text =>
      match json_loads text with
      | Return (VDict m) => first_real_email m
      | _ => None
      end
  end.
End OAuthInspector.

(** ** RuntimeCredentialOrchestrator *)

(** Modelled from the spec: a bundle is a mapping with the shared fields
    [token], [userName], [email]; it is present when [token] is populated,
    and the absent bundle is the empty mapping. *)
Definition field_str (b : pydict) (k : string) : string :=
  match dict_lookup b k with
  | Some (VStr s) => s
  | _ => ""
  end.

Definition present (b : pydict) : bool := negb (String.eqb (field_str b "token") "").

Definition carries_identity (b : pydict) : bool :=
  negb (String.eqb (field_str b "userName") "") || negb (String.eqb (field_str b "email") "").

Definition setenv_if_present (k : string) (b : pydict) (field : string) (w : world) : world :=
  if String.eqb (field_str b field) "" then w else setenv k (field_str b field) w.

(** Modelled from the spec: the materializers of step 2, each writing its
    own environment variables. *)
Definition materialize_github (b : pydict) (w : world) : world :=
  setenv "GITHUB_TOKEN" (field_str b "token") w.

Definition materialize_gitlab (b : pydict) (w : world) : world :=
  setenv_if_present "GITLAB_URL" b "instanceUrl"
    (setenv "GITLAB_TOKEN" (field_str b "token") w).

Section Orchestrator.
(** [json_dumps] and [json_loads] write and read the record file;
    [jira_site_field] is the bundle field holding the Jira site URL, which
    the specification does not name. *)
Context (vcs : string -> string -> vcs_result)
        (json_loads : string -> outcome value)
        (json_dumps : value -> string)
        (jira_site_field : string).

Definition materialize_jira (b : pydict) (w : world) : world :=
  setenv_if_present "ATLASSIAN_SITE_URL" b jira_site_field
    (setenv_if_present "ATLASSIAN_EMAIL" b "email"
       (setenv_if_present "ATLASSIAN_API_TOKEN" b "token" w)).

Definition materialize_google (b : pydict) (w : world) : world :=
  let w1 := match dict_lookup b "oauthRecords" with
            | Some payload => write_workspace_file (json_dumps payload) w
            | None => w
            end in
  match primary_email json_loads w1 with
  | Some e => setenv "USER_GOOGLE_EMAIL" e w1
  | None => w1
  end.

Definition when_present (b : pydict) (f : pydict -> world -> world) (w : world) : world :=
  if present b then f b w else w.

(** Modelled from the spec: step 3 of [populate], github before gitlab, the
    first present bundle that carries identity fields; [("", "")] when
    neither does. *)
Definition select_identity (github gitlab : pydict) : string * string :=
  if present github && carries_identity github
  then (field_str github "userName", field_str github "email")
  else if present gitlab && carries_identity gitlab
  then (field_str gitlab "userName", field_str gitlab "email")
  else ("", "").

(** Modelled from the spec: [populate_runtime_credentials] of [auth.py]
    (the orchestrator's [populate]), imported by [test_git_identity.py]
    but not among the sources.  The four bundles are the settled results
    of step 1; step 2 runs the materializers of the present ones; step 3
    applies the git identity. *)
Definition populate (google jira gitlab github : pydict) (w : world)
  : outcome unit * world :=
  let w2 := when_present github materialize_github
              (when_present gitlab materialize_gitlab
                 (when_present jira materialize_jira
                    (when_present google materialize_google w))) in
  let '(userName, email) := select_identity github gitlab in
  configure_git_identity vcs userName email w2.
End Orchestrator.

(** * The convenience entry point and repeated application *)

(** [loader.apply_to_options(options, config)] on whatever value
    [load_configuration] handed over: past the [if not config] test the
    method calls [config.get], which only a mapping has, outside any
    [try]. *)
Definition apply_to_options_value (float_repr : float -> string)
    (str_repr : string -> string) (options : ClaudeAgentOptions) (config : value)
  : outcome ClaudeAgentOptions :=
  match config with
  | VDict d => apply_to_options float_repr str_repr options d
  | _ => if truthy config then Raise AttributeError else Return options
  end.

Section LoadAndApply.
Context (http_get : string -> list (string * string) -> outcome (list Byte.byte))
        (decode_utf8 : list Byte.byte -> outcome string)
        (json_loads : string -> outcome value)
        (float_repr : float -> string) (str_repr : string -> string).

(** [load_and_apply_sdk_config(options, session_id, project_name)], with
    the process environment the loader's constructor reads. *)
Definition load_and_apply_sdk_config (environ : gmap string string)
    (options : ClaudeAgentOptions) (session project : string)
  : outcome ClaudeAgentOptions :=
  let loader := SDKConfigLoader_init environ session project in
  config <~ load_configuration http_get decode_utf8 json_loads loader ;;
  if truthy config
  then apply_to_options_value float_repr str_repr options config
  else Return options.
End LoadAndApply.

(** [apply_to_options] called [n] times in a row with the same
    configuration. *)
Fixpoint apply_times (float_repr : float -> string) (str_repr : string -> string)
    (n : nat) (options : ClaudeAgentOptions) (config : pydict)
  : outcome ClaudeAgentOptions :=
  match n with
  | O => Return options
  | S n' =>
      o <~ apply_times float_repr str_repr n' options config ;;
      apply_to_options float_repr str_repr o config
  end.

(** The keys of the configuration [apply_to_options] looks at and acts
    on. *)
Definition applied_keys : list string :=
  ["model"; "maxTokens"; "temperature"; "permissionMode"; "allowedTools";
   "includePartialMessages"; "systemPrompt"].

(** [s] written [n] times. *)
Fixpoint repeat_string (s : string) (n : nat) : string :=
  match n with
  | O => ""
  | S n' => s +:+ repeat_string s n'
  end.

(** The declaration the loop of [merge_mcp_servers] stores for an enabled
    entry [decl] whose command is [command]: [command], [args] (an empty
    list when absent) and, when truthy, [env]; no other key of the entry. *)
Definition sdk_declaration (decl : pydict) (command : value) : value :=
  let base := [("command", command); ("args", dict_get decl "args" (VList []))] in
  VDict (if truthy (dict_get decl "env" VNone)
         then dict_set base "env" (dict_get decl "env" VNone)
         else base).

(** * The projection table

    What [apply_to_options] leaves in each attribute, as a function of the
    configuration and of the attribute's previous content. *)

Definition overwrite_if (guard : value -> bool) (config : pydict) (k : string)
    (old : value) : value :=
  if guard (get config k) then get config k else old.

Definition tools_after (config : pydict) (old : value) : value :=
  if truthy (get config "allowedTools") then
    match (ts <~ py_iter old ;;
           existing_mcp_tools <~ comprehension_startswith ts mcp_prefix ;;
           add_list (get config "allowedTools") existing_mcp_tools) with
    | Return v => v
    | Raise _ => old
    end
  else old.

Definition text_prompt (text : string) : value :=
  VDict [("type", VStr "text"); ("text", VStr text)].

Definition prompt_after (float_repr : float -> string) (str_repr : string -> string)
    (config : pydict) (old : value) : value :=
  if truthy (get config "systemPrompt") then
    match (if truthy old then attr_get old "text" (VStr "") else Return (VStr "")) with
    | Return existing =>
        text_prompt (fmt float_repr str_repr existing +:+ custom_heading
                       +:+ fmt float_repr str_repr (get config "systemPrompt"))
    | Raise _ => old
    end
  else old.

(** Equality of [allowed_tools] as a set of tools. *)
Definition same_tools (a b : value) : Prop :=
  match a, b with
  | VList x, VList y => forall t, In t x <-> In t y
  | _, _ => a = b
  end.

Definition is_mcp_tool (t : value) : bool :=
  match t with
  | VStr s => startswith s mcp_prefix
  | _ => false
  end.

Definition all_strings (l : list value) : Prop :=
  forall t, In t l -> exists s, t = VStr s.

(** The text [apply_to_options] takes as the existing prompt, when the
    attribute is empty ([None]) or a mapping; [None] for any other content,
    on which [.get] raises. *)
Definition existing_prompt_of (sp : value) : option value :=
  if truthy sp then
    match sp with
    | VDict d => Some (dict_get d "text" (VStr ""))
    | _ => None
    end
  else Some (VStr "").

(** An entry of [mcpServers] the loop can process: a mapping that, unless
    disabled, has a [command]. *)
Definition well_formed_entry (server_config : value) : Prop :=
  exists decl,
    server_config = VDict decl /\
    (truthy (dict_get decl "enabled" (VBool true)) = true ->
     is_Some (dict_lookup decl "command")).

(** ** Sample inputs *)

Definition old_declaration : value :=
  VDict [("command", VStr "npx"); ("args", VList [VStr "static-server"])].

Definition sample_store : store := {[ 1%positive := [("gdrive", old_declaration)] ]}.

Definition disabling_config : pydict :=
  [("mcpServers",
    VDict [("gdrive", VDict [("command", VStr "npx"); ("enabled", VBool false)])])].

Definition sample_float_repr (f : float) : string := "0.0".
Definition sample_str_repr (s : string) : string := "'" +:+ s +:+ "'".

Definition default_options : ClaudeAgentOptions :=
  mkOptions VNone VNone VNone VNone (VList []) VNone VNone.

Definition dq : string := String (ascii_of_nat 34) "".

(** The text [{"maxTokens": 0}]. *)
Definition sample_body : string := "{" +:+ dq +:+ "maxTokens" +:+ dq +:+ ": 0}".

Definition sample_url : string :=
  "http://backend:8080/api/projects/demo/sdk/configuration/session/s-1".

(** A control plane that knows one session, and a reader of two documents. *)
Definition sample_http_get (url : string) (headers : list (string * string))
  : outcome (list Byte.byte) :=
  if String.eqb url sample_url then Return (list_byte_of_string sample_body)
  else Raise (HTTPError 404).

Definition sample_decode_utf8 (b : list Byte.byte) : outcome string :=
  Return (string_of_list_byte b).

Definition sample_json_loads (s : string) : outcome value :=
  if String.eqb s sample_body then Return (VDict [("maxTokens", VInt 0)])
  else if String.eqb s "{}" then Return (VDict [])
  else Raise JSONDecodeError.

Definition sample_environ : gmap string string :=
  {[ "BACKEND_API_URL" := "http://backend:8080/" ]}.

(** A VCS tool that always times out, and a world with nothing in it. *)
Definition failing_vcs (name email : string) : vcs_result := TimedOut.

Definition empty_world : world := mkWorld ∅ ∅ None None [].

(** A reader of timestamps of the shape [YYYY-MM-DDTHH:MM:SS], with or
    without a trailing [Z], as the number [YYYYMMDDHHMMSS]. *)
Definition digit_of (a : ascii) : option Z :=
  let n := nat_of_ascii a in
  if ((48 <=? n) && (n <=? 57))%nat then Some (Z.of_nat (n - 48)) else None.

Fixpoint read_pattern (pattern : list (option ascii)) (s : list ascii) (acc : Z) : option Z :=
  match pattern, s with
  | [], [] => Some acc
  | [], [a] => if Ascii.eqb a "Z"%char then Some acc else None
  | None :: pattern', a :: s' =>
      match digit_of a with
      | Some d => read_pattern pattern' s' (10 * acc + d)%Z
      | None => None
      end
  | Some c :: pattern', a :: s' =>
      if Ascii.eqb a c then read_pattern pattern' s' acc else None
  | _, _ => None
  end.

Definition timestamp_pattern : list (option ascii) :=
  [None; None; None; None; Some "-"%char; None; None; Some "-"%char; None; None;
   Some "T"%char; None; None; Some ":"%char; None; None; Some ":"%char; None; None].

Definition sample_parse_iso8601 (s : string) : option Z :=
  read_pattern timestamp_pattern (list_ascii_of_string s) 0.

Definition sample_now : Z := 20260101000000.

Definition oauth_record (expiry : string) : value :=
  VDict [("access_token", VStr "ya29.token"); ("refresh_token", VStr "1//refresh");
         ("token_expiry", VStr expiry); ("email", VStr "user@gmail.com")].

(** A reader of record files that knows two documents by their text. *)
Definition sample_oauth_loads (s : string) : outcome value :=
  if String.eqb s "malformed-expiry-document"
  then Return (VDict [("user@gmail.com", oauth_record "not-a-valid-timestamp")])
  else if String.eqb s "z-suffix-document"
  then Return (VDict [("user@gmail.com", oauth_record "2026-12-31T23:59:59Z")])
  else Raise JSONDecodeError.

Definition world_with_workspace_file (text : string) : world :=
  mkWorld ∅ ∅ (Some text) None [].

Definition github_bundle : pydict :=
  [("token", VStr "ghp_test"); ("userName", VStr "GH User"); ("email", VStr "g@h");
   ("provider", VStr "github")].

Definition gitlab_bundle : pydict :=
  [("token", VStr "glpat-test"); ("userName", VStr "GL"); ("email", VStr "l@l");
   ("provider", VStr "gitlab")].

Definition gdrive_entry : pydict :=
  [("command", VStr "uvx"); ("env", VDict [("K", VStr "v")]); ("timeout", VInt 30)].

Definition jira_entry : pydict := [("command", VStr "npx"); ("enabled", VBool false)].

Definition two_server_config : pydict :=
  [("mcpServers", VDict [("gdrive", VDict gdrive_entry); ("jira", VDict jira_entry)])].

(** An enabled entry without [command]. *)
Definition broken_config : pydict :=
  [("mcpServers", VDict [("jira", VDict jira_entry); ("slack", VDict [("args", VList [])])])].

(** A reader that answers every document with a mapping whose
    [allowedTools] is null. *)
Definition null_tools_json_loads (s : string) : outcome value :=
  Return (VDict [("model", VStr "opus"); ("allowedTools", VNone)]).

(** A network that must not be touched. *)
Definition unreachable_http_get (url : string) (headers : list (string * string))
  : outcome (list Byte.byte) :=
  Raise KeyboardInterrupt.

(** * Properties *)

(** ** Values and dictionaries *)

Lemma truthy_is_not_None v : truthy v = true -> is_not_None v = true.
Proof. destruct v; simpl; congruence. Qed.

Lemma dict_item_get config k :
  is_not_None (get config k) = true -> dict_item config k = Return (get config k).
Proof.
  unfold get, dict_get, dict_item.
  destruct (dict_lookup config k); simpl; [reflexivity | discriminate].
Qed.

Lemma get_empty k : get [] k = VNone.
Proof. reflexivity. Qed.

Lemma dict_lookup_set_eq d k v : dict_lookup (dict_set d k v) k = Some v.
Proof.
  induction d as [| [k' v'] d IH]; simpl.
  - now rewrite String.eqb_refl.
  - destruct (String.eqb k' k) eqn:E; simpl; rewrite E; auto.
Qed.

Lemma dict_lookup_set_ne d k k' v :
  k <> k' -> dict_lookup (dict_set d k v) k' = dict_lookup d k'.
Proof.
  intros Hne. induction d as [| [k0 v0] d IH]; simpl.
  - destruct (String.eqb k k') eqn:E; [apply String.eqb_eq in E; contradiction | reflexivity].
  - destruct (String.eqb k0 k) eqn:E; simpl.
    + apply String.eqb_eq in E. subst k0.
      destruct (String.eqb k k') eqn:E'; [apply String.eqb_eq in E'; contradiction | reflexivity].
    + now rewrite IH.
Qed.

(** ** Exceptions raised by the primitives *)

Lemma comprehension_startswith_raises l p e :
  comprehension_startswith l p = Raise e -> e = AttributeError.
Proof.
  induction l as [| t l IH]; simpl; [discriminate |].
  destruct t; simpl; try (intros [= <-]; reflexivity).
  destruct (comprehension_startswith l p); simpl; [discriminate |].
  intros [= <-]. now apply IH.
Qed.

Lemma comprehension_startswith_strings l p :
  all_strings l ->
  comprehension_startswith l p =
    Return (List.filter (fun t => match t with VStr s => startswith s p | _ => false end) l).
Proof.
  induction l as [| t l IH]; intros Hs; [reflexivity |].
  destruct (Hs t (or_introl eq_refl)) as [s ->]. simpl.
  rewrite IH by (intros x Hx; apply Hs; now right). simpl.
  destruct (startswith s p); reflexivity.
Qed.

(** ** [apply_to_options], block by block *)

Lemma guarded_return o o' : guarded o (Return o') = Return o'.
Proof. reflexivity. Qed.

Lemma guarded_raise o e : is_Exception e = true -> guarded o (Raise e) = Return o.
Proof. intros H. unfold guarded, try_except. now rewrite H. Qed.

Lemma set_model_id o : set_model (model o) o = o.
Proof. now destruct o. Qed.
Lemma set_max_tokens_id o : set_max_tokens (max_tokens o) o = o.
Proof. now destruct o. Qed.
Lemma set_temperature_id o : set_temperature (temperature o) o = o.
Proof. now destruct o. Qed.
Lemma set_permission_mode_id o : set_permission_mode (permission_mode o) o = o.
Proof. now destruct o. Qed.
Lemma set_allowed_tools_id o : set_allowed_tools (allowed_tools o) o = o.
Proof. now destruct o. Qed.
Lemma set_include_partial_messages_id o :
  set_include_partial_messages (include_partial_messages o) o = o.
Proof. now destruct o. Qed.
Lemma set_system_prompt_id o : set_system_prompt (system_prompt o) o = o.
Proof. now destruct o. Qed.

(** The blocks that overwrite one attribute. *)
Ltac overwrite_block set_id :=
  intros; unfold overwrite_if;
  match goal with
  | |- context [truthy (get ?c ?k)] =>
      destruct (truthy (get c k)) eqn:Hg;
      [ rewrite (dict_item_get c k (truthy_is_not_None _ Hg)); reflexivity
      | now rewrite set_id ]
  | |- context [is_not_None (get ?c ?k)] =>
      destruct (is_not_None (get c k)) eqn:Hg;
      [ rewrite (dict_item_get c k Hg); reflexivity
      | now rewrite set_id ]
  end.

Lemma apply_model_eq config o :
  apply_model config o = Return (set_model (overwrite_if truthy config "model" (model o)) o).
Proof. unfold apply_model. overwrite_block set_model_id. Qed.

Lemma apply_max_tokens_eq config o :
  apply_max_tokens config o =
    Return (set_max_tokens (overwrite_if truthy config "maxTokens" (max_tokens o)) o).
Proof. unfold apply_max_tokens. overwrite_block set_max_tokens_id. Qed.

Lemma apply_temperature_eq config o :
  apply_temperature config o =
    Return (set_temperature (overwrite_if is_not_None config "temperature" (temperature o)) o).
Proof. unfold apply_temperature. overwrite_block set_temperature_id. Qed.

Lemma apply_permission_mode_eq config o :
  apply_permission_mode config o =
    Return (set_permission_mode
              (overwrite_if truthy config "permissionMode" (permission_mode o)) o).
Proof. unfold apply_permission_mode. overwrite_block set_permission_mode_id. Qed.

Lemma apply_include_partial_messages_eq config o :
  apply_include_partial_messages config o =
    Return (set_include_partial_messages
              (overwrite_if is_not_None config "includePartialMessages"
                 (include_partial_messages o)) o).
Proof.
  unfold apply_include_partial_messages.
  overwrite_block set_include_partial_messages_id.
Qed.

Lemma apply_continue_conversation_eq config o :
  apply_continue_conversation config o = Return o.
Proof.
  unfold apply_continue_conversation.
  now destruct (is_not_None (get config "continueConversation")).
Qed.

Lemma apply_allowed_tools_eq config o :
  apply_allowed_tools config o =
    Return (set_allowed_tools (tools_after config (allowed_tools o)) o).
Proof.
  unfold apply_allowed_tools, tools_after.
  destruct (truthy (get config "allowedTools")) eqn:Hg;
    [| now rewrite set_allowed_tools_id].
  rewrite (dict_item_get _ _ (truthy_is_not_None _ Hg)).
  destruct (py_iter (allowed_tools o)) as [ts | e] eqn:Hi; simpl.
  - destruct (comprehension_startswith ts mcp_prefix) as [m | e] eqn:Hc; simpl.
    + destruct (add_list (get config "allowedTools") m) as [v | e] eqn:Ha; simpl.
      * reflexivity.
      * destruct (get config "allowedTools"); simpl in Ha; try discriminate;
          injection Ha as <-; cbn; now destruct o.
    + apply comprehension_startswith_raises in Hc as ->.
      cbn. now destruct o.
  - destruct (allowed_tools o) eqn:Ho; simpl in Hi; try discriminate;
      injection Hi as <-; cbn; now rewrite <- Ho, set_allowed_tools_id.
Qed.

Lemma apply_system_prompt_eq float_repr str_repr config o :
  apply_system_prompt float_repr str_repr config o =
    Return (set_system_prompt
              (prompt_after float_repr str_repr config (system_prompt o)) o).
Proof.
  unfold apply_system_prompt, prompt_after.
  destruct (truthy (get config "systemPrompt")) eqn:Hg;
    [| now rewrite set_system_prompt_id].
  rewrite (dict_item_get _ _ (truthy_is_not_None _ Hg)).
  destruct (truthy (system_prompt o)) eqn:Ht; simpl; [| reflexivity].
  destruct (system_prompt o) eqn:Hp; simpl; try (now rewrite <- Hp, set_system_prompt_id).
  reflexivity.
Qed.

(** The whole method: it always returns, and each attribute is the table's
    function of its previous content. *)
Lemma apply_to_options_eq float_repr str_repr o config :
  apply_to_options float_repr str_repr o config =
    Return (mkOptions
              (overwrite_if truthy config "model" (model o))
              (overwrite_if truthy config "maxTokens" (max_tokens o))
              (overwrite_if is_not_None config "temperature" (temperature o))
              (overwrite_if truthy config "permissionMode" (permission_mode o))
              (tools_after config (allowed_tools o))
              (overwrite_if is_not_None config "includePartialMessages"
                 (include_partial_messages o))
              (prompt_after float_repr str_repr config (system_prompt o))).
Proof.
  unfold apply_to_options.
  destruct config as [| kv config']; [now destruct o |].
  set (config := kv :: config').
  change (negb (truthy (VDict config))) with false. cbv iota.
  rewrite apply_model_eq; cbn [obind].
  rewrite apply_max_tokens_eq; cbn [obind].
  rewrite apply_temperature_eq; cbn [obind].
  rewrite apply_permission_mode_eq; cbn [obind].
  rewrite apply_allowed_tools_eq; cbn [obind].
  rewrite apply_include_partial_messages_eq; cbn [obind].
  rewrite apply_continue_conversation_eq; cbn [obind].
  rewrite apply_system_prompt_eq.
  now destruct o.
Qed.

(** ** The tool list *)

Lemma comprehension_startswith_In l p r :
  comprehension_startswith l p = Return r ->
  forall t, In t r <-> In t l /\ value_startswith t p = Return true.
Proof.
  revert r. induction l as [| a l IH]; simpl; intros r Hr t.
  - injection Hr as <-. simpl. tauto.
  - destruct (value_startswith a p) as [b | e] eqn:Ha; simpl in Hr; [| discriminate].
    destruct (comprehension_startswith l p) as [r' | e] eqn:Hl; simpl in Hr; [| discriminate].
    injection Hr as <-. specialize (IH r' eq_refl t).
    destruct b; simpl; rewrite IH; split.
    + intros [<- | [H1 H2]]; auto.
    + intros [[<- | H1] H2]; auto.
    + intros [H1 H2]; auto.
    + intros [[<- | H1] H2]; [congruence | auto].
Qed.

Lemma value_startswith_is_mcp t :
  value_startswith t mcp_prefix = Return true <-> is_mcp_tool t = true.
Proof.
  destruct t; simpl; split; try discriminate.
  - now intros [= ->].
  - now intros ->.
Qed.

Lemma same_tools_refl a : same_tools a a.
Proof. destruct a; simpl; try reflexivity; tauto. Qed.

Lemma tools_after_replaces config old new :
  get config "allowedTools" = VList new -> new <> [] -> all_strings old ->
  tools_after config (VList old) = VList (new ++ List.filter is_mcp_tool old).
Proof.
  intros Hget Hne Hs. unfold tools_after. rewrite Hget.
  destruct new as [| n new']; [contradiction |]. cbn [truthy py_iter obind].
  rewrite (comprehension_startswith_strings _ _ Hs). reflexivity.
Qed.

Lemma add_list_Return a b v :
  add_list a b = Return v -> exists l, a = VList l /\ v = VList (l ++ b).
Proof. destruct a; simpl; try discriminate. intros [= <-]. eauto. Qed.

Lemma tools_after_idempotent config old :
  same_tools (tools_after config (tools_after config old)) (tools_after config old).
Proof.
  destruct (truthy (get config "allowedTools")) eqn:Hg.
  2:{ unfold tools_after. rewrite Hg. apply same_tools_refl. }
  assert (Hstep : forall x, tools_after config x =
            match (ts <~ py_iter x ;;
                   m <~ comprehension_startswith ts mcp_prefix ;;
                   add_list (get config "allowedTools") m) with
            | Return v => v
            | Raise _ => x
            end).
  { intros x. unfold tools_after. now rewrite Hg. }
  rewrite (Hstep old).
  destruct (py_iter old) as [ts | e] eqn:Hi; cbn [obind].
  2:{ rewrite Hstep, Hi. apply same_tools_refl. }
  destruct (comprehension_startswith ts mcp_prefix) as [m | e] eqn:Hc; cbn [obind].
  2:{ rewrite Hstep, Hi. cbn [obind]. rewrite Hc. apply same_tools_refl. }
  destruct (add_list (get config "allowedTools") m) as [v | e] eqn:Ha.
  2:{ rewrite Hstep, Hi. cbn [obind]. rewrite Hc. cbn [obind]. rewrite Ha.
      apply same_tools_refl. }
  destruct (add_list_Return _ _ _ Ha) as (new & Hget & ->).
  rewrite Hstep, Hget. cbn [py_iter obind].
  destruct (comprehension_startswith (new ++ m) mcp_prefix) as [m2 | e] eqn:Hc2;
    cbn [obind add_list]; [| apply same_tools_refl].
  simpl. intros t. rewrite !in_app_iff.
  rewrite (comprehension_startswith_In _ _ _ Hc2 t), in_app_iff.
  pose proof (comprehension_startswith_In _ _ _ Hc t) as Hm.
  tauto.
Qed.

Lemma overwrite_if_idempotent guard config k old :
  overwrite_if guard config k (overwrite_if guard config k old) =
    overwrite_if guard config k old.
Proof. unfold overwrite_if. now destruct (guard (get config k)). Qed.

(** ** Claims about [apply_to_options] *)

(** C2. When the configuration's [allowedTools] is a non-empty list and
    [allowed_tools] holds tool names, [apply_to_options] leaves in
    [allowed_tools] exactly the configured tools together with the previous
    tools that start with [mcp__]: every previous MCP tool stays, every
    previous non-MCP tool that the configuration does not list goes. *)
Theorem allowed_tools_replaced_mcp_preserved
    float_repr str_repr (o : ClaudeAgentOptions) (config : pydict) (old new : list value) :
  allowed_tools o = VList old ->
  all_strings old ->
  dict_lookup config "allowedTools" = Some (VList new) ->
  new <> [] ->
  exists o' tools,
    apply_to_options float_repr str_repr o config = Return o' /\
    allowed_tools o' = VList tools /\
    (forall t, In t tools <-> In t new \/ (In t old /\ is_mcp_tool t = true)) /\
    (forall t, In t old -> is_mcp_tool t = true -> In t tools) /\
    (forall t, In t old -> is_mcp_tool t = false -> ~ In t new -> ~ In t tools).
Proof.
  intros Ho Hs Hc Hne.
  assert (Hget : get config "allowedTools" = VList new).
  { unfold get, dict_get. now rewrite Hc. }
  exists (mkOptions
            (overwrite_if truthy config "model" (model o))
            (overwrite_if truthy config "maxTokens" (max_tokens o))
            (overwrite_if is_not_None config "temperature" (temperature o))
            (overwrite_if truthy config "permissionMode" (permission_mode o))
            (tools_after config (allowed_tools o))
            (overwrite_if is_not_None config "includePartialMessages"
               (include_partial_messages o))
            (prompt_after float_repr str_repr config (system_prompt o))),
         (new ++ List.filter is_mcp_tool old)%list.
  assert (Hin : forall t, In t (new ++ List.filter is_mcp_tool old)%list <->
                          In t new \/ (In t old /\ is_mcp_tool t = true)).
  { intros t. rewrite in_app_iff, filter_In. tauto. }
  split; [apply apply_to_options_eq |].
  split; [cbn [allowed_tools]; rewrite Ho; now apply tools_after_replaces |].
  split; [exact Hin |].
  split.
  - intros t Ht Hm. apply Hin. auto.
  - intros t Ht Hm Hn Hin'. apply Hin in Hin' as [H | [_ H]]; congruence.
Qed.

(** The MCP-preservation scenario: [["Read", "mcp__gdrive__list"]] and a
    configuration with [allowedTools = ["Bash"]]. *)
Lemma allowed_tools_replaced_mcp_preserved_witness :
  exists o' tools,
    apply_to_options sample_float_repr sample_str_repr
      (set_allowed_tools (VList [VStr "Read"; VStr "mcp__gdrive__list"]) default_options)
      [("allowedTools", VList [VStr "Bash"])] = Return o' /\
    allowed_tools o' = VList tools /\
    (forall t, In t tools <->
               In t [VStr "Bash"] \/
               (In t [VStr "Read"; VStr "mcp__gdrive__list"] /\ is_mcp_tool t = true)) /\
    (forall t, In t [VStr "Read"; VStr "mcp__gdrive__list"] ->
               is_mcp_tool t = true -> In t tools) /\
    (forall t, In t [VStr "Read"; VStr "mcp__gdrive__list"] ->
               is_mcp_tool t = false -> ~ In t [VStr "Bash"] -> ~ In t tools).
Proof.
  apply (allowed_tools_replaced_mcp_preserved sample_float_repr sample_str_repr
           (set_allowed_tools (VList [VStr "Read"; VStr "mcp__gdrive__list"]) default_options)
           [("allowedTools", VList [VStr "Bash"])]
           [VStr "Read"; VStr "mcp__gdrive__list"] [VStr "Bash"]).
  - reflexivity.
  - intros t [<- | [<- | []]]; eauto.
  - reflexivity.
  - discriminate.
Defined.

Example mcp_preservation_scenario :
  apply_to_options sample_float_repr sample_str_repr
    (set_allowed_tools (VList [VStr "Read"; VStr "mcp__gdrive__list"]) default_options)
    [("allowedTools", VList [VStr "Bash"])]
  = Return (set_allowed_tools (VList [VStr "Bash"; VStr "mcp__gdrive__list"]) default_options).
Proof. reflexivity. Qed.

(** C5. Applying the same configuration twice leaves every attribute but
    [system_prompt] as one application does ([allowed_tools] as a set); when
    the configuration carries a [systemPrompt] and the prompt attribute is
    empty or a mapping, each application appends one
    ["\n\n## Custom Instructions\n{value}"] block to the prompt text. *)
Theorem apply_twice_same_but_system_prompt
    float_repr str_repr (o : ClaudeAgentOptions) (config : pydict) :
  exists o1 o2,
    apply_to_options float_repr str_repr o config = Return o1 /\
    apply_to_options float_repr str_repr o1 config = Return o2 /\
    model o2 = model o1 /\
    max_tokens o2 = max_tokens o1 /\
    temperature o2 = temperature o1 /\
    permission_mode o2 = permission_mode o1 /\
    same_tools (allowed_tools o2) (allowed_tools o1) /\
    include_partial_messages o2 = include_partial_messages o1 /\
    (forall p existing,
        dict_lookup config "systemPrompt" = Some p -> truthy p = true ->
        existing_prompt_of (system_prompt o) = Some existing ->
        let block := custom_heading +:+ fmt float_repr str_repr p in
        let text1 := fmt float_repr str_repr existing +:+ block in
        system_prompt o1 = text_prompt text1 /\
        system_prompt o2 = text_prompt (text1 +:+ block)).
Proof.
  eexists _, _.
  split; [apply apply_to_options_eq |].
  split; [apply apply_to_options_eq |].
  cbn [model max_tokens temperature permission_mode allowed_tools
       include_partial_messages system_prompt].
  rewrite !overwrite_if_idempotent.
  repeat (split; [reflexivity |]).
  split; [apply tools_after_idempotent |].
  split; [reflexivity |].
  intros p existing Hp Ht Hex.
  assert (Hget : get config "systemPrompt" = p).
  { unfold get, dict_get. now rewrite Hp. }
  assert (H1 : prompt_after float_repr str_repr config (system_prompt o) =
               text_prompt (fmt float_repr str_repr existing +:+ custom_heading
                              +:+ fmt float_repr str_repr p)).
  { unfold prompt_after. rewrite Hget, Ht.
    unfold existing_prompt_of in Hex.
    destruct (truthy (system_prompt o)).
    - destruct (system_prompt o); try discriminate.
      injection Hex as <-. reflexivity.
    - injection Hex as <-. reflexivity. }
  split; [exact H1 |].
  rewrite H1. unfold prompt_after. rewrite Hget, Ht. reflexivity.
Qed.

Example system_prompt_appends_each_time :
  exists o1 o2,
    apply_to_options sample_float_repr sample_str_repr default_options
      [("systemPrompt", VStr "Be brief")] = Return o1 /\
    apply_to_options sample_float_repr sample_str_repr o1
      [("systemPrompt", VStr "Be brief")] = Return o2 /\
    system_prompt o1 = text_prompt (custom_heading +:+ "Be brief") /\
    system_prompt o2 =
      text_prompt (custom_heading +:+ "Be brief" +:+ custom_heading +:+ "Be brief").
Proof. eexists _, _. repeat split. Qed.

(** C6, as the code has it.  [max_tokens] is overwritten when the
    configuration's [maxTokens] is truthy (present, not null, not zero);
    any other [maxTokens], and a missing one, leaves [max_tokens] as it
    was. *)
Theorem max_tokens_overwritten_when_truthy
    float_repr str_repr (o : ClaudeAgentOptions) (config : pydict) :
  exists o',
    apply_to_options float_repr str_repr o config = Return o' /\
    (forall v, dict_lookup config "maxTokens" = Some v -> truthy v = true ->
               max_tokens o' = v) /\
    (forall v, dict_lookup config "maxTokens" = Some v -> truthy v = false ->
               max_tokens o' = max_tokens o) /\
    (dict_lookup config "maxTokens" = None -> max_tokens o' = max_tokens o).
Proof.
  eexists. split; [apply apply_to_options_eq |].
  cbn [max_tokens]. unfold overwrite_if, get, dict_get.
  repeat split.
  - intros v -> ->. reflexivity.
  - intros v -> ->. reflexivity.
  - intros ->. reflexivity.
Qed.

(** C6 as stated fails: a configuration whose [maxTokens] is present with
    the value 0 does not overwrite [max_tokens]. *)
Lemma max_tokens_zero_is_not_applied :
  let o := set_max_tokens (VInt 4096) default_options in
  let config := [("maxTokens", VInt 0)] in
  dict_lookup config "maxTokens" = Some (VInt 0) /\
  ~ (exists o', apply_to_options sample_float_repr sample_str_repr o config = Return o' /\
                max_tokens o' = VInt 0).
Proof.
  split; [reflexivity |].
  intros (o' & Ha & Hm). cbv in Ha. injection Ha as <-. discriminate Hm.
Qed.

(** C7. A [temperature] of 0.0 is applied, as is every temperature that is
    present and not null; a null or missing [temperature] leaves the
    attribute as it was. *)
Theorem temperature_zero_is_applied
    float_repr str_repr (o : ClaudeAgentOptions) (config : pydict) :
  exists o',
    apply_to_options float_repr str_repr o config = Return o' /\
    (dict_lookup config "temperature" = Some (VFloat 0%float) ->
     temperature o' = VFloat 0%float) /\
    (forall v, dict_lookup config "temperature" = Some v -> v <> VNone ->
               temperature o' = v) /\
    (dict_lookup config "temperature" = Some VNone \/
     dict_lookup config "temperature" = None ->
     temperature o' = temperature o).
Proof.
  eexists. split; [apply apply_to_options_eq |].
  cbn [temperature]. unfold overwrite_if, get, dict_get.
  repeat split.
  - intros ->. reflexivity.
  - intros v -> Hv. destruct v; try reflexivity. contradiction.
  - intros [-> | ->]; reflexivity.
Qed.

Example temperature_zero_scenario :
  apply_to_options sample_float_repr sample_str_repr
    (set_temperature (VFloat 1%float) default_options) [("temperature", VFloat 0%float)]
  = Return (set_temperature (VFloat 0%float) default_options).
Proof. reflexivity. Qed.

(** ** [merge_mcp_servers] and the store *)

Lemma deref_alter (h : store) l f :
  deref (alter f l h) l = match h !! l with Some d => f d | None => [] end.
Proof. unfold deref. rewrite lookup_alter_eq. now destruct (h !! l). Qed.

(** One iteration writes only to the object [merged]. *)
Lemma merge_entry_frame merged entry (h h' : store) res :
  merge_entry merged entry h = (res, h') ->
  forall l, l <> merged -> h' !! l = h !! l.
Proof.
  destruct entry as [name server_config].
  unfold merge_entry, bind, lift, ret, setitem, setitem_in.
  intros H l Hl.
  repeat (case_match; simplify_eq/=); try reflexivity;
    rewrite ?lookup_insert_ne, ?lookup_alter_ne by congruence; reflexivity.
Qed.

Lemma setitem_other_name l k v (h : store) n :
  n <> k ->
  dict_lookup (deref (alter (fun d => dict_set d k v) l h) l) n = dict_lookup (deref h l) n.
Proof.
  intros Hn. rewrite deref_alter. unfold deref.
  destruct (h !! l); simpl; [apply dict_lookup_set_ne; congruence | reflexivity].
Qed.

Lemma setitem_in_other_name l name k v (h h' : store) res n :
  setitem_in l name k v h = (res, h') ->
  n <> name ->
  dict_lookup (deref h' l) n = dict_lookup (deref h l) n.
Proof.
  unfold setitem_in. intros H Hn.
  destruct (h !! l) as [d |] eqn:Hl; [| now simplify_eq].
  destruct (dict_lookup d name) as [[] |]; simplify_eq; try reflexivity.
  unfold deref. rewrite lookup_insert_eq, Hl. simpl.
  apply dict_lookup_set_ne. congruence.
Qed.

(** One iteration for [name] leaves every other name of [merged] alone. *)
Lemma merge_entry_other_name merged name server_config (h h' : store) res n :
  merge_entry merged (name, server_config) h = (res, h') ->
  n <> name ->
  dict_lookup (deref h' merged) n = dict_lookup (deref h merged) n.
Proof.
  unfold merge_entry, bind, lift, ret, setitem.
  intros H Hn.
  destruct (attr_get server_config "enabled" (VBool true)); [| now simplify_eq].
  destruct (negb (truthy a)); [now simplify_eq |].
  destruct (value_item server_config "command"); [| now simplify_eq].
  destruct (attr_get server_config "args" (VList [])); [| now simplify_eq].
  destruct (attr_get server_config "env" VNone);
    [| simplify_eq; now apply setitem_other_name].
  destruct (truthy a2); [| simplify_eq; now apply setitem_other_name].
  destruct (value_item server_config "env");
    [| simplify_eq; now apply setitem_other_name].
  rewrite (setitem_in_other_name _ _ _ _ _ _ _ _ H Hn).
  now apply setitem_other_name.
Qed.

(** A disabled entry is skipped. *)
Lemma merge_entry_disabled merged name decl (h : store) :
  truthy (dict_get decl "enabled" (VBool true)) = false ->
  merge_entry merged (name, VDict decl) h = (Return tt, h).
Proof.
  intros H. unfold merge_entry, bind, lift, ret. cbn [attr_get]. now rewrite H.
Qed.

Lemma for_each_frame merged entries (h h' : store) res :
  for_each entries (merge_entry merged) h = (res, h') ->
  forall l, l <> merged -> h' !! l = h !! l.
Proof.
  revert h. induction entries as [| entry entries IH]; cbn [for_each]; intros h H l Hl.
  - unfold ret in H. now simplify_eq.
  - unfold bind in H.
    destruct (merge_entry merged entry h) as [[[] | e] h1] eqn:He.
    + rewrite (IH _ H l Hl). eapply merge_entry_frame; eauto.
    + simplify_eq. eapply merge_entry_frame; eauto.
Qed.

(** Entries that are all disabled or named otherwise leave [n] alone. *)
Lemma for_each_keeps_name merged entries (h h' : store) res n :
  (forall name server_config,
      In (name, server_config) entries ->
      name <> n \/
      exists decl, server_config = VDict decl /\
                   truthy (dict_get decl "enabled" (VBool true)) = false) ->
  for_each entries (merge_entry merged) h = (res, h') ->
  dict_lookup (deref h' merged) n = dict_lookup (deref h merged) n.
Proof.
  revert h. induction entries as [| [name sc] entries IH]; cbn [for_each]; intros h Hall H.
  - unfold ret in H. now simplify_eq.
  - unfold bind in H.
    assert (Hstep : forall r h1, merge_entry merged (name, sc) h = (r, h1) ->
              dict_lookup (deref h1 merged) n = dict_lookup (deref h merged) n).
    { intros r h1 He.
      destruct (Hall name sc (or_introl eq_refl)) as [Hne | (decl & -> & Hd)].
      - eapply merge_entry_other_name; eauto.
      - rewrite (merge_entry_disabled _ _ _ _ Hd) in He. now simplify_eq. }
    destruct (merge_entry merged (name, sc) h) as [[[] | e] h1] eqn:He.
    + rewrite (IH h1); [eapply Hstep; eauto | | exact H].
      intros name' sc' Hin. apply Hall. now right.
    + simplify_eq. eapply Hstep; eauto.
Qed.

Lemma dict_lookup_In d k v : dict_lookup d k = Some v -> In (k, v) d.
Proof.
  induction d as [| [k' v'] d IH]; simpl; [discriminate |].
  destruct (String.eqb k' k) eqn:E.
  - apply String.eqb_eq in E. intros [= ->]. left. now subst.
  - intros H. right. auto.
Qed.

Lemma dict_lookup_unique d k v v' :
  NoDup (map fst d) -> dict_lookup d k = Some v -> In (k, v') d -> v' = v.
Proof.
  induction d as [| [k0 v0] d IH]; simpl; [discriminate |].
  intros Hnd Hl Hin. apply NoDup_cons in Hnd as [Hk Hnd].
  destruct (String.eqb k0 k) eqn:E.
  - apply String.eqb_eq in E. subst k0. injection Hl as <-.
    destruct Hin as [[= <-] | Hin]; [reflexivity |].
    exfalso. apply Hk. apply list_elem_of_In. apply (in_map fst) in Hin. exact Hin.
  - destruct Hin as [[= -> ->] | Hin]; [rewrite String.eqb_refl in E; discriminate |].
    now apply IH.
Qed.

(** The method, once the configuration has servers and the reference is
    allocated: a copy at a new location, then the loop on the copy. *)
Lemma merge_mcp_servers_unfold existing config (h : store) x servers :
  h !! existing = Some x ->
  dict_lookup config "mcpServers" = Some (VDict servers) ->
  servers <> [] ->
  merge_mcp_servers existing config h =
    let merged := fresh (dom h) in
    match for_each servers (merge_entry merged) (<[merged := x]> h) with
    | (Return _, h') => (Return merged, h')
    | (Raise e, h') => (Raise e, h')
    end.
Proof.
  intros Hx Hc Hne. unfold merge_mcp_servers.
  assert (Hget : get config "mcpServers" = VDict servers).
  { unfold get, dict_get. now rewrite Hc. }
  assert (Hcfg : truthy (VDict config) = true).
  { destruct config; [discriminate | reflexivity]. }
  rewrite Hcfg, Hget.
  destruct servers as [| s0 servers']; [contradiction |].
  cbn [truthy negb orb].
  unfold bind, copy, lift, ret. rewrite Hx.
  unfold dict_item. rewrite Hc. cbn [items].
  destruct (for_each _ _ _) as [[[] | e] h']; reflexivity.
Qed.

Lemma merge_entry_returns merged name server_config (h : store) :
  is_Some (h !! merged) -> well_formed_entry server_config ->
  exists h', merge_entry merged (name, server_config) h = (Return tt, h') /\
             is_Some (h' !! merged).
Proof.
  intros [d Hd] (decl & -> & Hwf).
  unfold merge_entry, bind, lift, ret, setitem. cbn [attr_get value_item].
  destruct (truthy (dict_get decl "enabled" (VBool true))) eqn:He; cbn [negb].
  2:{ eexists. split; [reflexivity | eauto]. }
  destruct (Hwf eq_refl) as [cmd Hcmd]. unfold dict_item at 1. rewrite Hcmd.
  destruct (truthy (dict_get decl "env" VNone)) eqn:Henv.
  - rewrite (dict_item_get decl "env" (truthy_is_not_None _ Henv)).
    unfold setitem_in. rewrite lookup_alter_eq, Hd. cbn [fmap option_fmap option_map].
    rewrite dict_lookup_set_eq.
    eexists. split; [reflexivity |]. rewrite lookup_insert_eq. eauto.
  - eexists. split; [reflexivity |]. rewrite lookup_alter_eq, Hd. simpl. eauto.
Qed.

Lemma for_each_returns merged entries (h : store) :
  is_Some (h !! merged) ->
  (forall name sc, In (name, sc) entries -> well_formed_entry sc) ->
  exists h', for_each entries (merge_entry merged) h = (Return tt, h').
Proof.
  revert h. induction entries as [| [name sc] entries IH]; cbn [for_each]; intros h Hm Hwf.
  - eexists. reflexivity.
  - destruct (merge_entry_returns merged name sc h Hm (Hwf name sc (or_introl eq_refl)))
      as (h1 & He & Hm1).
    unfold bind. rewrite He. apply IH; [exact Hm1 |].
    intros name' sc' Hin. eapply Hwf. right. exact Hin.
Qed.

(** C1, as the code has it.  A disabled entry of [mcpServers] is skipped:
    the merged map holds under its name what the existing map held, so the
    name is absent from the result only when it was absent before.  The
    method returns whenever every entry is a mapping that, unless disabled,
    has a [command]. *)
Theorem merge_mcp_servers_skips_disabled
    (existing : loc) (config : pydict) (h : store) (x servers decl : pydict) (n : string) :
  h !! existing = Some x ->
  dict_lookup config "mcpServers" = Some (VDict servers) ->
  NoDup (map fst servers) ->
  dict_lookup servers n = Some (VDict decl) ->
  truthy (dict_get decl "enabled" (VBool true)) = false ->
  (forall merged h',
      merge_mcp_servers existing config h = (Return merged, h') ->
      dict_lookup (deref h' merged) n = dict_lookup x n) /\
  ((forall name sc, In (name, sc) servers -> well_formed_entry sc) ->
   exists merged h', merge_mcp_servers existing config h = (Return merged, h')).
Proof.
  intros Hx Hc Hnd Hn Hd.
  assert (Hne : servers <> []) by (intros ->; discriminate).
  rewrite (merge_mcp_servers_unfold _ _ _ _ _ Hx Hc Hne). cbv zeta.
  set (merged := fresh (dom h)).
  split.
  - intros merged' h' H.
    destruct (for_each servers (merge_entry merged) (<[merged := x]> h))
      as [[[] | e] h1] eqn:Hf; [| discriminate].
    injection H as <- <-.
    rewrite (for_each_keeps_name _ _ _ _ _ n) with (2 := Hf).
    + unfold deref. now rewrite lookup_insert_eq.
    + intros name sc Hin.
      destruct (String.eqb name n) eqn:E.
      * apply String.eqb_eq in E. subst name. right.
        exists decl. split; [| exact Hd].
        exact (dict_lookup_unique _ _ _ _ Hnd Hn Hin).
      * left. intros ->. rewrite String.eqb_refl in E. discriminate.
  - intros Hwf.
    destruct (for_each_returns merged servers (<[merged := x]> h)) as [h' Hf].
    + rewrite lookup_insert_eq. eauto.
    + exact Hwf.
    + rewrite Hf. eauto.
Qed.

Lemma merge_mcp_servers_skips_disabled_witness :
  (forall merged h',
      merge_mcp_servers 1%positive disabling_config sample_store = (Return merged, h') ->
      dict_lookup (deref h' merged) "gdrive" = Some old_declaration) /\
  ((forall name sc,
       In (name, sc)
          [("gdrive", VDict [("command", VStr "npx"); ("enabled", VBool false)])] ->
       well_formed_entry sc) ->
   exists merged h',
     merge_mcp_servers 1%positive disabling_config sample_store = (Return merged, h')).
Proof.
  apply (merge_mcp_servers_skips_disabled 1%positive disabling_config sample_store
           [("gdrive", old_declaration)]
           [("gdrive", VDict [("command", VStr "npx"); ("enabled", VBool false)])]
           [("command", VStr "npx"); ("enabled", VBool false)] "gdrive").
  - reflexivity.
  - reflexivity.
  - repeat constructor. intros H. inversion H.
  - reflexivity.
  - reflexivity.
Defined.

(** C1 as stated fails: the existing map declares [gdrive], the
    configuration disables [gdrive], and the merged map still holds the
    existing declaration. *)
Lemma disabled_server_survives_merge :
  exists merged h',
    merge_mcp_servers 1%positive disabling_config sample_store = (Return merged, h') /\
    dict_lookup (deref h' merged) "gdrive" = Some old_declaration /\
    dict_lookup (deref h' merged) "gdrive" <> None.
Proof.
  eexists _, _. split; [vm_compute; reflexivity |].
  split; [vm_compute; reflexivity | vm_compute; discriminate].
Qed.

Lemma fresh_unallocated (h : store) : h !! fresh (dom h) = None.
Proof. apply not_elem_of_dom. apply is_fresh. Qed.

(** Every run either leaves the store as it was and returns the reference
    it was given, or works on a location that was not allocated before. *)
Lemma merge_mcp_servers_writes existing config (h h' : store) res :
  merge_mcp_servers existing config h = (res, h') ->
  (h' = h /\
   (forall merged, res = Return merged ->
                   merged = existing /\
                   (config = [] \/ truthy (get config "mcpServers") = false))) \/
  ((forall l, l <> fresh (dom h) -> h' !! l = h !! l) /\
   truthy (get config "mcpServers") = true /\
   (forall merged, res = Return merged -> merged = fresh (dom h))).
Proof.
  unfold merge_mcp_servers.
  destruct (truthy (VDict config)) eqn:Hcfg; cbn [negb orb].
  2:{ unfold ret. intros [= <- <-]. left. split; [reflexivity |].
      intros merged [= <-]. split; [reflexivity |]. left. now destruct config. }
  destruct (truthy (get config "mcpServers")) eqn:Hs; cbn [negb].
  2:{ unfold ret. intros [= <- <-]. left. split; [reflexivity |].
      intros merged [= <-]. auto. }
  unfold bind, copy, lift, ret.
  destruct (h !! existing) as [x |] eqn:Hx.
  2:{ intros [= <- <-]. left. split; [reflexivity | discriminate]. }
  set (merged := fresh (dom h)).
  assert (Hins : forall l, l <> merged -> <[merged := x]> h !! l = h !! l).
  { intros l Hl. now rewrite lookup_insert_ne. }
  destruct (dict_item config "mcpServers") as [servers | e].
  2:{ intros [= <- <-]. right. repeat split; [exact Hins | discriminate]. }
  destruct (items servers) as [entries | e].
  2:{ intros [= <- <-]. right. repeat split; [exact Hins | discriminate]. }
  destruct (for_each entries (merge_entry merged) (<[merged := x]> h))
    as [[[] | e] h1] eqn:Hf; intros [= <- <-]; right; repeat split.
  - intros l Hl. rewrite (for_each_frame _ _ _ _ _ Hf l Hl). now apply Hins.
  - now intros m [= <-].
  - intros l Hl. rewrite (for_each_frame _ _ _ _ _ Hf l Hl). now apply Hins.
  - discriminate.
Qed.

Lemma merge_mcp_servers_unallocated existing config (h h' : store) res :
  h !! existing = None ->
  merge_mcp_servers existing config h = (res, h') ->
  h' = h /\ (forall merged, res = Return merged ->
                            truthy (get config "mcpServers") = true -> False).
Proof.
  intros Hx. unfold merge_mcp_servers.
  destruct (truthy (VDict config)) eqn:Hc; cbn [negb orb].
  2:{ unfold ret. intros [= <- <-]. split; [reflexivity |].
      intros merged _ Ht. destruct config; [discriminate Ht | discriminate Hc]. }
  destruct (truthy (get config "mcpServers")) eqn:Hs; cbn [negb].
  - unfold bind, copy. rewrite Hx. intros [= <- <-]. split; [reflexivity | discriminate].
  - unfold ret. intros [= <- <-]. split; [reflexivity | discriminate].
Qed.

(** C10. [merge_mcp_servers] never writes to the map it is given: after
    the call, returning or raising, the object [existing_servers] designates
    holds what it held, as does every object allocated before; the result is
    the given reference with the store untouched when the configuration has
    no servers, and a location that was not allocated before otherwise. *)
Theorem merge_mcp_servers_leaves_existing
    (existing : loc) (config : pydict) (h : store) :
  let run := merge_mcp_servers existing config h in
  snd run !! existing = h !! existing /\
  (forall l d, h !! l = Some d -> snd run !! l = Some d) /\
  (forall merged,
      fst run = Return merged ->
      (merged = existing /\ snd run = h /\
       (config = [] \/ truthy (get config "mcpServers") = false))
      \/
      (merged <> existing /\ h !! merged = None /\ is_Some (h !! existing) /\
       truthy (get config "mcpServers") = true)).
Proof.
  cbv zeta.
  destruct (merge_mcp_servers existing config h) as [res h'] eqn:Hrun. cbn [fst snd].
  assert (Hkeep : h' = h \/ forall l d, h !! l = Some d -> h' !! l = Some d).
  { destruct (merge_mcp_servers_writes _ _ _ _ _ Hrun) as [[-> _] | (Hfr & _)]; [now left |].
    right. intros l d Hl. rewrite Hfr; [exact Hl |].
    intros ->. rewrite fresh_unallocated in Hl. discriminate. }
  split; [| split].
  - destruct Hkeep as [-> | Hkeep]; [reflexivity |].
    destruct (h !! existing) as [x |] eqn:Hx; [now apply Hkeep |].
    destruct (merge_mcp_servers_unallocated _ _ _ _ _ Hx Hrun) as [-> _]. exact Hx.
  - destruct Hkeep as [-> | Hkeep]; auto.
  - intros merged ->.
    destruct (merge_mcp_servers_writes _ _ _ _ _ Hrun) as [[-> Hret] | (Hfr & Hs & Hret)].
    + left. destruct (Hret merged eq_refl) as [-> Hno]. auto.
    + right. rewrite (Hret merged eq_refl).
      assert (Hx : is_Some (h !! existing)).
      { destruct (h !! existing) eqn:Hx; [eauto |].
        destruct (merge_mcp_servers_unallocated _ _ _ _ _ Hx Hrun) as [_ Hno].
        destruct (Hno merged eq_refl Hs). }
      repeat split; [| apply fresh_unallocated | exact Hx | exact Hs].
      intros Heq. rewrite <- Heq in Hx. rewrite fresh_unallocated in Hx.
      destruct Hx as [? ?]. discriminate.
Qed.

Example merge_overrides_and_keeps_existing :
  let config :=
    [("mcpServers",
      VDict [("gdrive", VDict [("command", VStr "uvx"); ("env", VDict [("K", VStr "v")])])])] in
  let run := merge_mcp_servers 1%positive config sample_store in
  fst run = Return 2%positive /\
  deref (snd run) 2%positive =
    [("gdrive", VDict [("command", VStr "uvx"); ("args", VList []);
                       ("env", VDict [("K", VStr "v")])])] /\
  deref (snd run) 1%positive = [("gdrive", old_declaration)].
Proof. vm_compute. repeat split. Qed.

(** ** [load_configuration] *)

Section LoadProperties.
Context (http_get : string -> list (string * string) -> outcome (list Byte.byte))
        (decode_utf8 : list Byte.byte -> outcome string)
        (json_loads : string -> outcome value).

(** What the [try] block returns is a mapping: the log line calls
    [config.get]. *)
Lemma load_configuration_try_Return self v :
  load_configuration_try http_get decode_utf8 json_loads self = Return v ->
  exists d, v = VDict d.
Proof.
  unfold load_configuration_try.
  destruct (http_get _ _); [cbn [obind] | discriminate].
  destruct (decode_utf8 _); [cbn [obind] | discriminate].
  destruct (json_loads _) as [config |]; [cbn [obind] | discriminate].
  destruct config; try discriminate. cbn [attr_get obind].
  destruct (py_len _); [cbn [obind] | discriminate].
  intros [= <-]. eauto.
Qed.

Lemma load_configuration_try_Raise self e :
  (forall url hs e, http_get url hs = Raise e -> is_Exception e = true) ->
  (forall b e, decode_utf8 b = Raise e -> is_Exception e = true) ->
  (forall s e, json_loads s = Raise e -> is_Exception e = true) ->
  load_configuration_try http_get decode_utf8 json_loads self = Raise e ->
  is_Exception e = true.
Proof.
  intros Hh Hd Hj. unfold load_configuration_try.
  destruct (http_get _ _) eqn:E1; cbn [obind]; [| intros [= <-]; eauto].
  destruct (decode_utf8 _) eqn:E2; cbn [obind]; [| intros [= <-]; eauto].
  destruct (json_loads _) as [config |] eqn:E3; cbn [obind]; [| intros [= <-]; eauto].
  destruct config; cbn [attr_get obind]; try (intros [= <-]; reflexivity).
  destruct (dict_get d "allowedTools" (VList [])); cbn [py_len obind];
    try discriminate; intros [= <-]; reflexivity.
Qed.
End LoadProperties.

(** C8. Whatever the environment holds and whatever the control plane and
    the decoders answer, as long as what they raise derives from
    [Exception], [load_configuration] returns: [None] when [BACKEND_API_URL]
    is missing or empty, when the request fails (timeout, non-2xx status,
    connection), when the body does not decode or does not parse; the
    parsed mapping when every step succeeds; never anything but [None] or a
    mapping, and never an exception. *)
Theorem load_configuration_never_raises
    (http_get : string -> list (string * string) -> outcome (list Byte.byte))
    (decode_utf8 : list Byte.byte -> outcome string)
    (json_loads : string -> outcome value)
    (environ : gmap string string) (session project : string) :
  (forall url hs e, http_get url hs = Raise e -> is_Exception e = true) ->
  (forall b e, decode_utf8 b = Raise e -> is_Exception e = true) ->
  (forall s e, json_loads s = Raise e -> is_Exception e = true) ->
  let self := SDKConfigLoader_init environ session project in
  let request := http_get (configuration_url self) (request_headers self) in
  exists v,
    load_configuration http_get decode_utf8 json_loads self = Return v /\
    (v = VNone \/ exists d, v = VDict d) /\
    (environ !! "BACKEND_API_URL" = None -> v = VNone) /\
    (backend_url self = "" -> v = VNone) /\
    (forall e, request = Raise e -> v = VNone) /\
    (forall body e, request = Return body -> decode_utf8 body = Raise e -> v = VNone) /\
    (forall body data e,
        request = Return body -> decode_utf8 body = Return data ->
        json_loads data = Raise e -> v = VNone) /\
    (forall body data d n,
        backend_url self <> "" ->
        request = Return body -> decode_utf8 body = Return data ->
        json_loads data = Return (VDict d) ->
        py_len (dict_get d "allowedTools" (VList [])) = Return n ->
        v = VDict d).
Proof.
  intros Hh Hd Hj self request.
  assert (Hmissing : environ !! "BACKEND_API_URL" = None -> backend_url self = "").
  { intros Hm. unfold self, SDKConfigLoader_init, getenv. cbn [backend_url].
    now rewrite Hm. }
  unfold load_configuration.
  destruct (String.eqb (backend_url self) "") eqn:Hb.
  { apply String.eqb_eq in Hb. exists VNone.
    cbn [truthy]. rewrite Hb. cbn.
    repeat split; auto. intros body data d n Hne. contradiction. }
  assert (Hb' : backend_url self <> "").
  { intros Hb'. rewrite Hb', String.eqb_refl in Hb. discriminate. }
  cbn [truthy]. rewrite Hb. cbn [negb].
  destruct (load_configuration_try http_get decode_utf8 json_loads self) as [v | e] eqn:Htry.
  - exists v. cbn [try_except].
    destruct (load_configuration_try_Return _ _ _ _ _ Htry) as [d ->].
    unfold load_configuration_try in Htry. fold request in Htry.
    split; [reflexivity |]. split; [eauto |].
    split; [intros Hm; now apply Hmissing in Hm |].
    split; [intros Hm; contradiction |].
    split; [intros e He; rewrite He in Htry; discriminate |].
    split; [intros body e He He2; rewrite He in Htry; cbn [obind] in Htry;
            rewrite He2 in Htry; discriminate |].
    split; [intros body data e He He2 He3; rewrite He in Htry; cbn [obind] in Htry;
            rewrite He2 in Htry; cbn [obind] in Htry; rewrite He3 in Htry; discriminate |].
    intros body data d' n _ He He2 He3 He4.
    rewrite He in Htry; cbn [obind] in Htry.
    rewrite He2 in Htry; cbn [obind] in Htry.
    rewrite He3 in Htry; cbn [obind attr_get] in Htry.
    rewrite He4 in Htry; cbn [obind] in Htry. congruence.
  - exists VNone. unfold try_except.
    rewrite (load_configuration_try_Raise _ _ _ _ _ Hh Hd Hj Htry).
    split; [reflexivity |]. split; [auto |].
    repeat split; try reflexivity.
    intros body data d n _ He He2 He3 He4.
    unfold load_configuration_try in Htry. fold request in Htry.
    rewrite He in Htry; cbn [obind] in Htry.
    rewrite He2 in Htry; cbn [obind] in Htry.
    rewrite He3 in Htry; cbn [obind attr_get] in Htry.
    rewrite He4 in Htry; cbn [obind] in Htry. discriminate.
Qed.

Lemma sample_http_get_Exception url hs e :
  sample_http_get url hs = Raise e -> is_Exception e = true.
Proof.
  unfold sample_http_get. destruct (String.eqb url sample_url); [discriminate |].
  now intros [= <-].
Defined.

Lemma sample_json_loads_Exception s e :
  sample_json_loads s = Raise e -> is_Exception e = true.
Proof.
  unfold sample_json_loads.
  destruct (String.eqb s sample_body); [discriminate |].
  destruct (String.eqb s "{}"); [discriminate |].
  now intros [= <-].
Defined.

Lemma load_configuration_never_raises_witness :
  exists v,
    load_configuration sample_http_get sample_decode_utf8 sample_json_loads
      (SDKConfigLoader_init sample_environ "s-1" "demo") = Return v /\
    v = VDict [("maxTokens", VInt 0)].
Proof.
  destruct (load_configuration_never_raises
              sample_http_get sample_decode_utf8 sample_json_loads
              sample_environ "s-1" "demo"
              sample_http_get_Exception
              (fun b e (H : sample_decode_utf8 b = Raise e) =>
                 match H in (_ = r) return
                       (match r with Raise _ => is_Exception e = true | Return _ => True end)
                 with eq_refl => I end)
              sample_json_loads_Exception)
    as (v & Hrun & _ & _ & _ & _ & _ & _ & Hok).
  exists v. split; [exact Hrun |].
  apply (Hok (list_byte_of_string sample_body) sample_body [("maxTokens", VInt 0)] 0%Z).
  - discriminate.
  - reflexivity.
  - reflexivity.
  - reflexivity.
  - reflexivity.
Defined.

Example load_configuration_unknown_session :
  load_configuration sample_http_get sample_decode_utf8 sample_json_loads
    (SDKConfigLoader_init sample_environ "s-2" "demo") = Return VNone.
Proof. vm_compute. reflexivity. Qed.

Example load_configuration_without_backend :
  load_configuration sample_http_get sample_decode_utf8 sample_json_loads
    (SDKConfigLoader_init ∅ "s-1" "demo") = Return VNone.
Proof. vm_compute. reflexivity. Qed.

(** ** GitIdentityConfigurator *)

Lemma configure_git_identity_environ vcs userName email w :
  environ (snd (configure_git_identity vcs userName email w)) =
    <["GIT_USER_EMAIL" := or_default (strip email) default_git_user_email]>
      (<["GIT_USER_NAME" := or_default (strip userName) default_git_user_name]> (environ w)).
Proof. unfold configure_git_identity. now destruct (vcs _ _). Qed.

Lemma configure_git_identity_returns vcs userName email w :
  fst (configure_git_identity vcs userName email w) = Return tt.
Proof. unfold configure_git_identity. now destruct (vcs _ _). Qed.

Lemma or_default_nonempty s dflt : s <> "" -> or_default s dflt = s.
Proof.
  intros H. unfold or_default. destruct (String.eqb s "") eqn:E; [| reflexivity].
  apply String.eqb_eq in E. contradiction.
Qed.

(** C9. For every input and every outcome of the VCS tool, the
    configurator returns without raising and leaves [GIT_USER_NAME] and
    [GIT_USER_EMAIL] set to the trimmed inputs, or to the defaults when those
    are empty; a failed or timed-out tool changes no VCS setting and does
    not undo the two variables. *)
Theorem git_identity_env_set_even_if_vcs_fails
    (vcs : string -> string -> vcs_result) (userName email : string) (w : world) :
  let run := configure_git_identity vcs userName email w in
  let name := or_default (strip userName) default_git_user_name in
  let mail := or_default (strip email) default_git_user_email in
  fst run = Return tt /\
  environ (snd run) !! "GIT_USER_NAME" = Some name /\
  environ (snd run) !! "GIT_USER_EMAIL" = Some mail /\
  (strip userName <> "" -> name = strip userName) /\
  (strip email <> "" -> mail = strip email) /\
  (strip userName = "" -> name = "Ambient Code Bot") /\
  (strip email = "" -> mail = "bot@ambient-code.local") /\
  (vcs name mail <> Persisted ->
   git_config (snd run) = git_config w /\
   environ (snd run) !! "GIT_USER_NAME" = Some name /\
   environ (snd run) !! "GIT_USER_EMAIL" = Some mail).
Proof.
  cbv zeta.
  assert (Hn : environ (snd (configure_git_identity vcs userName email w))
               !! "GIT_USER_NAME" = Some (or_default (strip userName) default_git_user_name)).
  { rewrite configure_git_identity_environ.
    rewrite lookup_insert_ne by discriminate. apply lookup_insert_eq. }
  assert (He : environ (snd (configure_git_identity vcs userName email w))
               !! "GIT_USER_EMAIL" = Some (or_default (strip email) default_git_user_email)).
  { rewrite configure_git_identity_environ. apply lookup_insert_eq. }
  split; [apply configure_git_identity_returns |].
  split; [exact Hn |]. split; [exact He |].
  split; [apply or_default_nonempty |]. split; [apply or_default_nonempty |].
  split; [intros ->; reflexivity |]. split; [intros ->; reflexivity |].
  intros Hv. split; [| split; assumption].
  unfold configure_git_identity.
  destruct (vcs _ _); [contradiction | reflexivity | reflexivity].
Qed.

Example git_identity_timeout_scenario :
  let run := configure_git_identity failing_vcs "Test User" "test@example.com" empty_world in
  fst run = Return tt /\
  environ (snd run) !! "GIT_USER_NAME" = Some "Test User" /\
  environ (snd run) !! "GIT_USER_EMAIL" = Some "test@example.com" /\
  git_config (snd run) = ∅.
Proof. vm_compute. repeat split. Qed.

Example git_identity_whitespace_scenario :
  let run := configure_git_identity failing_vcs "  Jane Doe  " "   " empty_world in
  environ (snd run) !! "GIT_USER_NAME" = Some "Jane Doe" /\
  environ (snd run) !! "GIT_USER_EMAIL" = Some "bot@ambient-code.local".
Proof. vm_compute. repeat split. Qed.

(** ** RuntimeCredentialOrchestrator *)

(** C4. When the github and the gitlab bundles are both present and carry
    identity, the identity applied is github's: the two variables hold
    github's trimmed [userName] and [email].  When neither bundle is
    present, the identity applied is [("", "")] and the variables hold
    "Ambient Code Bot" and "bot@ambient-code.local".  In both cases
    [populate] returns. *)
Theorem populate_git_identity_precedence
    (vcs : string -> string -> vcs_result)
    (json_loads : string -> outcome value) (json_dumps : value -> string)
    (jira_site_field : string)
    (google jira gitlab github : pydict) (w : world) :
  let run := populate vcs json_loads json_dumps jira_site_field google jira gitlab github w in
  fst run = Return tt /\
  (present github = true -> carries_identity github = true ->
   present gitlab = true -> carries_identity gitlab = true ->
   select_identity github gitlab = (field_str github "userName", field_str github "email") /\
   environ (snd run) !! "GIT_USER_NAME" =
     Some (or_default (strip (field_str github "userName")) default_git_user_name) /\
   environ (snd run) !! "GIT_USER_EMAIL" =
     Some (or_default (strip (field_str github "email")) default_git_user_email)) /\
  (present github = false -> present gitlab = false ->
   select_identity github gitlab = ("", "") /\
   environ (snd run) !! "GIT_USER_NAME" = Some "Ambient Code Bot" /\
   environ (snd run) !! "GIT_USER_EMAIL" = Some "bot@ambient-code.local").
Proof.
  cbv zeta. unfold populate.
  destruct (select_identity github gitlab) as [userName email] eqn:Hsel.
  split; [apply configure_git_identity_returns |].
  rewrite configure_git_identity_environ.
  rewrite lookup_insert_eq, lookup_insert_ne by discriminate. rewrite lookup_insert_eq.
  split.
  - intros Hp Hc _ _. unfold select_identity in Hsel. rewrite Hp, Hc in Hsel.
    cbn [andb] in Hsel. injection Hsel as <- <-. auto.
  - intros Hp Hq. unfold select_identity in Hsel. rewrite Hp, Hq in Hsel.
    cbn [andb] in Hsel. injection Hsel as <- <-. auto.
Qed.

Example precedence_scenario :
  environ (snd (populate failing_vcs sample_oauth_loads (fun _ => "") "url"
                  [] [] gitlab_bundle github_bundle empty_world))
  = {[ "GITHUB_TOKEN" := "ghp_test"; "GITLAB_TOKEN" := "glpat-test";
       "GIT_USER_NAME" := "GH User"; "GIT_USER_EMAIL" := "g@h" ]}.
Proof. vm_compute. reflexivity. Qed.

Example default_fallback_scenario :
  environ (snd (populate failing_vcs sample_oauth_loads (fun _ => "") "url"
                  [] [] [] [] empty_world))
  = {[ "GIT_USER_NAME" := "Ambient Code Bot"; "GIT_USER_EMAIL" := "bot@ambient-code.local" ]}.
Proof. vm_compute. reflexivity. Qed.

(** ** OAuthInspector *)

Lemma existsb_false {A} (f : A -> bool) (l : list A) :
  (forall x, In x l -> f x = false) -> existsb f l = false.
Proof.
  intros H. destruct (existsb f l) eqn:E; [| reflexivity].
  apply existsb_exists in E as (x & Hin & Hx). rewrite (H x Hin) in Hx. discriminate.
Qed.

Lemma message_mentions_reason reason who :
  is_substring reason (message reason who) = true.
Proof.
  assert (Hp : forall rest, String.prefix reason (reason +:+ rest) = true).
  { induction reason as [| a reason IH]; intros rest; simpl.
    - now destruct rest.
    - destruct (ascii_dec a a); [apply IH | contradiction]. }
  assert (Hs : forall s, String.prefix reason s = true -> is_substring reason s = true).
  { intros s H. destruct s; cbn [is_substring]; rewrite H; reflexivity. }
  apply Hs. destruct who; simpl.
  - apply Hp.
  - clear Hp Hs. induction reason as [| a reason IH]; simpl; [reflexivity |].
    destruct (ascii_dec a a); [exact IH | contradiction].
Qed.

Section OAuthProperties.
Context (json_loads : string -> outcome value)
        (parse_iso8601 : string -> option Z)
        (now : Z).

Lemma unparseable_expiry_string r ts :
  record_field r "token_expiry" = Some (VStr ts) ->
  parse_iso8601 ts = None ->
  unparseable_expiry parse_iso8601 r = true.
Proof.
  intros Hf Hp. unfold unparseable_expiry, expiry_of. now rewrite Hf, Hp.
Qed.

Lemma classify_records_unparseable m :
  (forall k r, In (k, r) m ->
               has_placeholder_email r = false /\
               missing_token r = false /\
               empty_refresh_token r = false) ->
  (exists k r, In (k, r) m /\ unparseable_expiry parse_iso8601 r = true) ->
  classify_records parse_iso8601 now m =
    (NeedsRefresh, message "invalid timestamp" (first_real_email m)).
Proof.
  intros Hok (k & r & Hin & Hbad).
  assert (Hrec : forall x, In x (map snd m) -> exists k, In (k, x) m).
  { intros x Hx. apply in_map_iff in Hx as ([k' x'] & <- & Hx). eauto. }
  unfold classify_records.
  rewrite (existsb_false has_placeholder_email)
    by (intros x Hx; destruct (Hrec x Hx) as [k' Hk]; now destruct (Hok k' x Hk)).
  rewrite (existsb_false missing_token)
    by (intros x Hx; destruct (Hrec x Hx) as [k' Hk]; now destruct (Hok k' x Hk) as (_ & ? & _)).
  rewrite (existsb_false empty_refresh_token)
    by (intros x Hx; destruct (Hrec x Hx) as [k' Hk]; now destruct (Hok k' x Hk) as (_ & _ & ?)).
  assert (Hex : existsb (unparseable_expiry parse_iso8601) (map snd m) = true).
  { apply existsb_exists. exists r. split; [| exact Hbad].
    apply in_map_iff. exists (k, r). auto. }
  now rewrite Hex.
Qed.
End OAuthProperties.

(** C3. When the record file is readable, its records are complete (no
    placeholder email, both tokens present, a non-empty refresh token) and
    some record carries a [token_expiry] string that does not parse as a
    timestamp, the classifier answers [NeedsRefresh] with a message that
    mentions the invalid timestamp, and so does not answer [Valid]. *)
Theorem unparseable_expiry_needs_refresh
    (json_loads : string -> outcome value) (parse_iso8601 : string -> option Z) (now : Z)
    (w : world) (text : string) (m : pydict) :
  locate w = Some text ->
  text <> "" ->
  json_loads text = Return (VDict m) ->
  (forall k r, In (k, r) m ->
               has_placeholder_email r = false /\
               missing_token r = false /\
               empty_refresh_token r = false) ->
  (exists k r ts, In (k, r) m /\
                  record_field r "token_expiry" = Some (VStr ts) /\
                  parse_iso8601 ts = None) ->
  exists msg,
    classify json_loads parse_iso8601 now w = (NeedsRefresh, msg) /\
    is_substring "invalid timestamp" msg = true /\
    fst (classify json_loads parse_iso8601 now w) <> Valid.
Proof.
  intros Hloc Htext Hjson Hok (k & r & ts & Hin & Hf & Hp).
  assert (Hc : classify json_loads parse_iso8601 now w =
               (NeedsRefresh, message "invalid timestamp" (first_real_email m))).
  { unfold classify. rewrite Hloc.
    destruct (String.eqb text "") eqn:E; [apply String.eqb_eq in E; contradiction |].
    rewrite Hjson.
    destruct m as [| kv m']; [destruct Hin |].
    apply classify_records_unparseable; [exact Hok |].
    exists k, r. split; [exact Hin |].
    eapply unparseable_expiry_string; eauto. }
  exists (message "invalid timestamp" (first_real_email m)).
  split; [exact Hc |]. split; [apply message_mentions_reason |].
  rewrite Hc. discriminate.
Qed.

(** The malformed-expiry scenario: [token_expiry = "not-a-valid-timestamp"]. *)
Lemma unparseable_expiry_needs_refresh_witness :
  exists msg,
    classify sample_oauth_loads sample_parse_iso8601 sample_now
      (world_with_workspace_file "malformed-expiry-document") = (NeedsRefresh, msg) /\
    is_substring "invalid timestamp" msg = true /\
    fst (classify sample_oauth_loads sample_parse_iso8601 sample_now
           (world_with_workspace_file "malformed-expiry-document")) <> Valid.
Proof.
  apply (unparseable_expiry_needs_refresh sample_oauth_loads sample_parse_iso8601 sample_now
           (world_with_workspace_file "malformed-expiry-document")
           "malformed-expiry-document"
           [("user@gmail.com", oauth_record "not-a-valid-timestamp")]).
  - reflexivity.
  - discriminate.
  - reflexivity.
  - intros k r [[= <- <-] | []]. repeat split.
  - exists "user@gmail.com", (oauth_record "not-a-valid-timestamp"), "not-a-valid-timestamp".
    repeat split. now left.
Defined.

Example malformed_expiry_scenario :
  classify sample_oauth_loads sample_parse_iso8601 sample_now
    (world_with_workspace_file "malformed-expiry-document")
  = (NeedsRefresh, "invalid timestamp (user@gmail.com)").
Proof. vm_compute. reflexivity. Qed.

Example z_suffix_scenario :
  fst (classify sample_oauth_loads sample_parse_iso8601 sample_now
         (world_with_workspace_file "z-suffix-document")) = Valid.
Proof. vm_compute. reflexivity. Qed.

(** * Further properties of [sdk_config.py] *)

(** ** [apply_to_options]: what it leaves alone *)

(** X1. [apply_to_options] returns for every options object and every
    configuration, and an attribute whose key the configuration does not
    have keeps its content. *)
Theorem apply_to_options_touches_only_configured
    float_repr str_repr (o : ClaudeAgentOptions) (config : pydict) :
  exists o',
    apply_to_options float_repr str_repr o config = Return o' /\
    (dict_lookup config "model" = None -> model o' = model o) /\
    (dict_lookup config "maxTokens" = None -> max_tokens o' = max_tokens o) /\
    (dict_lookup config "temperature" = None -> temperature o' = temperature o) /\
    (dict_lookup config "permissionMode" = None ->
     permission_mode o' = permission_mode o) /\
    (dict_lookup config "allowedTools" = None -> allowed_tools o' = allowed_tools o) /\
    (dict_lookup config "includePartialMessages" = None ->
     include_partial_messages o' = include_partial_messages o) /\
    (dict_lookup config "systemPrompt" = None -> system_prompt o' = system_prompt o).
Proof.
  eexists. split; [apply apply_to_options_eq |].
  cbn [model max_tokens temperature permission_mode allowed_tools
       include_partial_messages system_prompt].
  unfold overwrite_if, tools_after, prompt_after, get, dict_get.
  repeat split; intros ->; reflexivity.
Qed.

Lemma get_set_ne config k k' v : k <> k' -> get (dict_set config k v) k' = get config k'.
Proof. intros H. unfold get, dict_get. now rewrite dict_lookup_set_ne. Qed.

(** X2. Only seven keys of the configuration matter to
    [apply_to_options]: setting any other key, [continueConversation] and
    [mcpServers] among them, to any value gives the same result. *)
Theorem apply_to_options_ignores_other_keys
    float_repr str_repr (o : ClaudeAgentOptions) (config : pydict) (k : string) (v : value) :
  ~ In k applied_keys ->
  apply_to_options float_repr str_repr o (dict_set config k v) =
    apply_to_options float_repr str_repr o config.
Proof.
  intros Hk.
  assert (Hne : forall k', In k' applied_keys -> get (dict_set config k v) k' = get config k').
  { intros k' Hk'. apply get_set_ne. intros ->. contradiction. }
  rewrite !apply_to_options_eq.
  unfold overwrite_if, tools_after, prompt_after.
  rewrite !Hne by (unfold applied_keys; simpl; tauto).
  reflexivity.
Qed.

Lemma apply_to_options_ignores_other_keys_witness :
  apply_to_options sample_float_repr sample_str_repr default_options
    (dict_set [("model", VStr "opus")] "continueConversation" (VBool true)) =
  apply_to_options sample_float_repr sample_str_repr default_options
    [("model", VStr "opus")]
  /\
  apply_to_options sample_float_repr sample_str_repr default_options
    (dict_set [("model", VStr "opus")] "mcpServers" (VDict [("s", VDict [])])) =
  apply_to_options sample_float_repr sample_str_repr default_options
    [("model", VStr "opus")].
Proof.
  split.
  - apply (apply_to_options_ignores_other_keys sample_float_repr sample_str_repr
             default_options [("model", VStr "opus")] "continueConversation" (VBool true)).
    unfold applied_keys. simpl. intros H.
    repeat (destruct H as [H | H]; [discriminate H |]). exact H.
  - apply (apply_to_options_ignores_other_keys sample_float_repr sample_str_repr
             default_options [("model", VStr "opus")] "mcpServers" (VDict [("s", VDict [])])).
    unfold applied_keys. simpl. intros H.
    repeat (destruct H as [H | H]; [discriminate H |]). exact H.
Defined.

(** X3. [model] and [permission_mode] are overwritten by a truthy
    configuration value only: an empty string (like a null) does not clear
    the attribute. *)
Theorem model_and_permission_mode_need_truthy
    float_repr str_repr (o : ClaudeAgentOptions) (config : pydict) :
  exists o',
    apply_to_options float_repr str_repr o config = Return o' /\
    (forall v, dict_lookup config "model" = Some v -> truthy v = true -> model o' = v) /\
    (forall v, dict_lookup config "model" = Some v -> truthy v = false ->
               model o' = model o) /\
    (dict_lookup config "model" = Some (VStr "") -> model o' = model o) /\
    (forall v, dict_lookup config "permissionMode" = Some v -> truthy v = true ->
               permission_mode o' = v) /\
    (forall v, dict_lookup config "permissionMode" = Some v -> truthy v = false ->
               permission_mode o' = permission_mode o) /\
    (dict_lookup config "permissionMode" = Some (VStr "") ->
     permission_mode o' = permission_mode o).
Proof.
  eexists. split; [apply apply_to_options_eq |].
  cbn [model permission_mode]. unfold overwrite_if, get, dict_get.
  repeat split; try (intros v -> ->; reflexivity); intros ->; reflexivity.
Qed.

(** X4. [includePartialMessages = false] is applied: the attribute is
    overwritten by every value that is not null, and kept for a null or
    missing one. *)
Theorem include_partial_messages_false_is_applied
    float_repr str_repr (o : ClaudeAgentOptions) (config : pydict) :
  exists o',
    apply_to_options float_repr str_repr o config = Return o' /\
    (dict_lookup config "includePartialMessages" = Some (VBool false) ->
     include_partial_messages o' = VBool false) /\
    (forall v, dict_lookup config "includePartialMessages" = Some v -> v <> VNone ->
               include_partial_messages o' = v) /\
    (dict_lookup config "includePartialMessages" = Some VNone \/
     dict_lookup config "includePartialMessages" = None ->
     include_partial_messages o' = include_partial_messages o).
Proof.
  eexists. split; [apply apply_to_options_eq |].
  cbn [include_partial_messages]. unfold overwrite_if, get, dict_get.
  repeat split.
  - intros ->. reflexivity.
  - intros v -> Hv. destruct v; try reflexivity. contradiction.
  - intros [-> | ->]; reflexivity.
Qed.

(** X5. An [allowedTools] that is not a non-empty list (an empty list, a
    null, a string, a number, a mapping) leaves [allowed_tools] as it was:
    the configuration cannot clear the tool list, and a malformed value is
    swallowed. *)
Theorem allowed_tools_kept_unless_nonempty_list
    float_repr str_repr (o : ClaudeAgentOptions) (config : pydict) :
  (forall l, dict_lookup config "allowedTools" = Some (VList l) -> l = []) ->
  exists o',
    apply_to_options float_repr str_repr o config = Return o' /\
    allowed_tools o' = allowed_tools o.
Proof.
  intros Hl. eexists. split; [apply apply_to_options_eq |].
  cbn [allowed_tools]. unfold tools_after, get, dict_get.
  destruct (dict_lookup config "allowedTools") as [v |]; [| reflexivity].
  destruct v as [| | | | | l |]; cbn [truthy]; try reflexivity;
    try (rewrite (Hl l eq_refl); reflexivity);
    match goal with
    | |- (if ?c then _ else _) = _ => destruct c; [| reflexivity]
    end;
    destruct (py_iter (allowed_tools o)); cbn [obind]; try reflexivity;
    destruct (comprehension_startswith _ _); cbn [obind add_list]; reflexivity.
Qed.

Lemma allowed_tools_kept_unless_nonempty_list_witness :
  exists o',
    apply_to_options sample_float_repr sample_str_repr
      (set_allowed_tools (VList [VStr "Read"]) default_options)
      [("allowedTools", VStr "Bash")] = Return o' /\
    allowed_tools o' = VList [VStr "Read"].
Proof.
  apply (allowed_tools_kept_unless_nonempty_list sample_float_repr sample_str_repr
           (set_allowed_tools (VList [VStr "Read"]) default_options)
           [("allowedTools", VStr "Bash")]).
  intros l H. discriminate H.
Defined.

(** X6. When [system_prompt] holds a truthy value that is not a mapping (a
    plain string prompt), a configured [systemPrompt] is dropped: the
    attribute keeps its content. *)
Theorem plain_string_prompt_is_kept
    float_repr str_repr (o : ClaudeAgentOptions) (config : pydict) :
  truthy (system_prompt o) = true ->
  (forall d, system_prompt o <> VDict d) ->
  exists o',
    apply_to_options float_repr str_repr o config = Return o' /\
    system_prompt o' = system_prompt o.
Proof.
  intros Ht Hd. eexists. split; [apply apply_to_options_eq |].
  cbn [system_prompt]. unfold prompt_after. rewrite Ht.
  destruct (truthy (get config "systemPrompt")); [| reflexivity].
  destruct (system_prompt o) as [| | | | | |d]; try reflexivity.
  destruct (Hd d eq_refl).
Qed.

Lemma plain_string_prompt_is_kept_witness :
  exists o',
    apply_to_options sample_float_repr sample_str_repr
      (set_system_prompt (VStr "You are a helpful assistant") default_options)
      [("systemPrompt", VStr "Be brief")] = Return o' /\
    system_prompt o' = VStr "You are a helpful assistant".
Proof.
  apply (plain_string_prompt_is_kept sample_float_repr sample_str_repr
           (set_system_prompt (VStr "You are a helpful assistant") default_options)
           [("systemPrompt", VStr "Be brief")]).
  - reflexivity.
  - intros d H. discriminate H.
Defined.

(** ** [apply_to_options] applied again and again *)

Lemma apply_times_eq float_repr str_repr n o config :
  apply_times float_repr str_repr n o config =
    Return (mkOptions
              (Nat.iter n (overwrite_if truthy config "model") (model o))
              (Nat.iter n (overwrite_if truthy config "maxTokens") (max_tokens o))
              (Nat.iter n (overwrite_if is_not_None config "temperature") (temperature o))
              (Nat.iter n (overwrite_if truthy config "permissionMode") (permission_mode o))
              (Nat.iter n (tools_after config) (allowed_tools o))
              (Nat.iter n (overwrite_if is_not_None config "includePartialMessages")
                 (include_partial_messages o))
              (Nat.iter n (prompt_after float_repr str_repr config) (system_prompt o))).
Proof.
  induction n as [| n IH]; cbn [apply_times].
  - now destruct o.
  - rewrite IH. cbn [obind]. rewrite apply_to_options_eq. reflexivity.
Qed.

Lemma filter_idempotent {A} (f : A -> bool) (l : list A) :
  List.filter f (List.filter f l) = List.filter f l.
Proof.
  induction l as [| a l IH]; simpl; [reflexivity |].
  destruct (f a) eqn:E; simpl; [rewrite E; f_equal |]; exact IH.
Qed.

Lemma filter_concat_repeat {A} (f : A -> bool) (l : list A) n :
  List.filter f (List.concat (List.repeat (List.filter f l) n)) =
    List.concat (List.repeat (List.filter f l) n).
Proof.
  induction n as [| n IH]; simpl; [reflexivity |].
  now rewrite List.filter_app, filter_idempotent, IH.
Qed.

Lemma all_strings_app l1 l2 : all_strings l1 -> all_strings l2 -> all_strings (l1 ++ l2).
Proof. intros H1 H2 t Ht. apply in_app_iff in Ht as [Ht | Ht]; auto. Qed.

Lemma all_strings_filter f l : all_strings l -> all_strings (List.filter f l).
Proof. intros H t Ht. apply filter_In in Ht as [Ht _]. auto. Qed.

Lemma all_strings_concat_repeat l n :
  all_strings l -> all_strings (List.concat (List.repeat l n)).
Proof.
  intros H. induction n as [| n IH]; simpl; [intros t [] |].
  now apply all_strings_app.
Qed.

Lemma tools_after_iter config old new n :
  get config "allowedTools" = VList new -> new <> [] ->
  all_strings old -> all_strings new ->
  Nat.iter (S n) (tools_after config) (VList old) =
    VList (new ++ List.concat (List.repeat (List.filter is_mcp_tool new) n)
               ++ List.filter is_mcp_tool old).
Proof.
  intros Hget Hne Hold Hnew. induction n as [| n IH].
  - cbn [Nat.iter nat_rect List.repeat List.concat app].
    now apply tools_after_replaces.
  - change (Nat.iter (S (S n)) (tools_after config) (VList old))
      with (tools_after config (Nat.iter (S n) (tools_after config) (VList old))).
    rewrite IH.
    rewrite (tools_after_replaces _ _ _ Hget Hne).
    + rewrite !List.filter_app, filter_concat_repeat, filter_idempotent.
      cbn [List.repeat List.concat]. now rewrite <- !app_assoc.
    + apply all_strings_app; [exact Hnew |].
      apply all_strings_app; [| now apply all_strings_filter].
      apply all_strings_concat_repeat. now apply all_strings_filter.
Qed.

(** X7. Applying the same configuration again and again makes
    [allowed_tools] grow: after [n + 1] applications the list is the
    configured tools, then [n] copies of the configured tools that start
    with [mcp__], then the MCP tools the options started with. *)
Theorem allowed_tools_after_repeated_apply
    float_repr str_repr (o : ClaudeAgentOptions) (config : pydict)
    (old new : list value) (n : nat) :
  allowed_tools o = VList old ->
  all_strings old ->
  dict_lookup config "allowedTools" = Some (VList new) ->
  new <> [] ->
  all_strings new ->
  exists o',
    apply_times float_repr str_repr (S n) o config = Return o' /\
    allowed_tools o' =
      VList (new ++ List.concat (List.repeat (List.filter is_mcp_tool new) n)
                 ++ List.filter is_mcp_tool old).
Proof.
  intros Ho Hold Hc Hne Hnew.
  assert (Hget : get config "allowedTools" = VList new).
  { unfold get, dict_get. now rewrite Hc. }
  eexists. split; [apply apply_times_eq |].
  cbn [allowed_tools]. rewrite Ho. now apply tools_after_iter.
Qed.

Lemma allowed_tools_after_repeated_apply_witness :
  exists o',
    apply_times sample_float_repr sample_str_repr 3
      (set_allowed_tools (VList [VStr "Read"; VStr "mcp__gdrive__list"]) default_options)
      [("allowedTools", VList [VStr "Bash"; VStr "mcp__jira__get"])] = Return o' /\
    allowed_tools o' =
      VList [VStr "Bash"; VStr "mcp__jira__get"; VStr "mcp__jira__get";
             VStr "mcp__jira__get"; VStr "mcp__gdrive__list"].
Proof.
  apply (allowed_tools_after_repeated_apply sample_float_repr sample_str_repr
           (set_allowed_tools (VList [VStr "Read"; VStr "mcp__gdrive__list"]) default_options)
           [("allowedTools", VList [VStr "Bash"; VStr "mcp__jira__get"])]
           [VStr "Read"; VStr "mcp__gdrive__list"]
           [VStr "Bash"; VStr "mcp__jira__get"] 2).
  - reflexivity.
  - intros t [<- | [<- | []]]; eauto.
  - reflexivity.
  - discriminate.
  - intros t [<- | [<- | []]]; eauto.
Defined.

Lemma append_cons x (a b : string) : String x a +:+ b = String x (a +:+ b).
Proof. reflexivity. Qed.

Lemma append_assoc (a b c : string) : (a +:+ b) +:+ c = a +:+ (b +:+ c).
Proof.
  induction a as [| x a IH]; [reflexivity |].
  rewrite !append_cons. f_equal. exact IH.
Qed.

Lemma append_empty_right (a : string) : a +:+ "" = a.
Proof.
  induction a as [| x a IH]; [reflexivity |].
  rewrite append_cons. f_equal. exact IH.
Qed.

Lemma repeat_string_snoc s n : repeat_string s n +:+ s = s +:+ repeat_string s n.
Proof.
  induction n as [| n IH]; cbn [repeat_string].
  - now rewrite append_empty_right.
  - now rewrite append_assoc, IH.
Qed.

(** X8. With a configured [systemPrompt] and a prompt attribute that is
    empty or a mapping, [n] applications in a row append [n] copies of the
    custom-instructions block to the existing prompt text: the prompt
    grows linearly with the number of applications. *)
Theorem system_prompt_after_repeated_apply
    float_repr str_repr (o : ClaudeAgentOptions) (config : pydict)
    (p existing : value) (n : nat) :
  dict_lookup config "systemPrompt" = Some p ->
  truthy p = true ->
  existing_prompt_of (system_prompt o) = Some existing ->
  exists o',
    apply_times float_repr str_repr (S n) o config = Return o' /\
    system_prompt o' =
      text_prompt (fmt float_repr str_repr existing
                     +:+ repeat_string (custom_heading +:+ fmt float_repr str_repr p) (S n)).
Proof.
  intros Hp Ht Hex.
  assert (Hget : get config "systemPrompt" = p).
  { unfold get, dict_get. now rewrite Hp. }
  set (block := custom_heading +:+ fmt float_repr str_repr p).
  assert (Hstep : forall t, prompt_after float_repr str_repr config (text_prompt t) =
                            text_prompt (t +:+ block)).
  { intros t. unfold prompt_after. rewrite Hget, Ht. reflexivity. }
  assert (H1 : prompt_after float_repr str_repr config (system_prompt o) =
               text_prompt (fmt float_repr str_repr existing +:+ block)).
  { unfold prompt_after. rewrite Hget, Ht.
    unfold existing_prompt_of in Hex.
    destruct (truthy (system_prompt o)).
    - destruct (system_prompt o); try discriminate.
      injection Hex as <-. reflexivity.
    - injection Hex as <-. reflexivity. }
  eexists. split; [apply apply_times_eq |].
  cbn [system_prompt].
  induction n as [| n IH].
  - cbn [Nat.iter nat_rect repeat_string]. rewrite H1. now rewrite append_empty_right.
  - change (Nat.iter (S (S n)) (prompt_after float_repr str_repr config) (system_prompt o))
      with (prompt_after float_repr str_repr config
              (Nat.iter (S n) (prompt_after float_repr str_repr config) (system_prompt o))).
    rewrite IH, Hstep. f_equal.
    rewrite append_assoc. f_equal.
    change (repeat_string block (S (S n))) with (block +:+ repeat_string block (S n)).
    apply repeat_string_snoc.
Qed.

Lemma system_prompt_after_repeated_apply_witness :
  exists o',
    apply_times sample_float_repr sample_str_repr 3 default_options
      [("systemPrompt", VStr "Be brief")] = Return o' /\
    system_prompt o' =
      text_prompt (fmt sample_float_repr sample_str_repr (VStr "")
                     +:+ repeat_string
                           (custom_heading +:+ fmt sample_float_repr sample_str_repr
                                                   (VStr "Be brief")) 3).
Proof.
  apply (system_prompt_after_repeated_apply sample_float_repr sample_str_repr
           default_options [("systemPrompt", VStr "Be brief")] (VStr "Be brief") (VStr "") 2).
  - reflexivity.
  - reflexivity.
  - reflexivity.
Defined.

(** ** [merge_mcp_servers]: what the merged map holds *)

Lemma dict_set_same d k v : dict_lookup d k = Some v -> dict_set d k v = d.
Proof.
  induction d as [| [k' v'] d IH]; simpl; [discriminate |].
  destruct (String.eqb k' k) eqn:E.
  - now intros [= ->].
  - intros H. now rewrite IH.
Qed.

Lemma dict_set_set d k v v' : dict_set (dict_set d k v) k v' = dict_set d k v'.
Proof.
  induction d as [| [k0 v0] d IH]; simpl.
  - now rewrite String.eqb_refl.
  - destruct (String.eqb k0 k) eqn:E; simpl; rewrite E; [reflexivity | now rewrite IH].
Qed.

Lemma dict_lookup_None_In d k v : dict_lookup d k = None -> ~ In (k, v) d.
Proof.
  induction d as [| [k' v'] d IH]; simpl; [tauto |].
  destruct (String.eqb k' k) eqn:E; [discriminate |].
  intros H [[= -> ->] | Hin]; [rewrite String.eqb_refl in E; discriminate | now apply IH].
Qed.

(** One iteration on an enabled entry with a command. *)
Lemma merge_entry_enabled merged name decl command (h : store) d :
  h !! merged = Some d ->
  truthy (dict_get decl "enabled" (VBool true)) = true ->
  dict_lookup decl "command" = Some command ->
  exists h',
    merge_entry merged (name, VDict decl) h = (Return tt, h') /\
    h' !! merged = Some (dict_set d name (sdk_declaration decl command)).
Proof.
  intros Hd He Hc.
  unfold merge_entry, bind, lift, ret, setitem, sdk_declaration.
  cbn [attr_get value_item]. rewrite He. cbn [negb].
  unfold dict_item at 1. rewrite Hc.
  destruct (truthy (dict_get decl "env" VNone)) eqn:Henv.
  - rewrite (dict_item_get decl "env" (truthy_is_not_None _ Henv)).
    unfold setitem_in. rewrite lookup_alter_eq, Hd. cbn [fmap option_fmap option_map].
    rewrite dict_lookup_set_eq.
    eexists. split; [reflexivity |].
    rewrite lookup_insert_eq, dict_set_set. reflexivity.
  - eexists. split; [reflexivity |]. rewrite lookup_alter_eq, Hd. reflexivity.
Qed.

Lemma merge_entry_allocated merged entry (h h' : store) res :
  is_Some (h !! merged) ->
  merge_entry merged entry h = (res, h') ->
  is_Some (h' !! merged).
Proof.
  destruct entry as [name sc]. intros [d Hd].
  unfold merge_entry, bind, lift, ret, setitem, setitem_in.
  intros H.
  repeat (case_match; simplify_eq/=);
    rewrite ?lookup_insert_eq, ?lookup_alter_eq, ?Hd; simpl; eauto.
Qed.

(** After a loop that returns, an enabled entry's name holds the entry's
    declaration, provided names are not repeated. *)
Lemma for_each_sets_enabled merged entries (h h' : store) n decl command :
  NoDup (map fst entries) ->
  In (n, VDict decl) entries ->
  truthy (dict_get decl "enabled" (VBool true)) = true ->
  dict_lookup decl "command" = Some command ->
  is_Some (h !! merged) ->
  for_each entries (merge_entry merged) h = (Return tt, h') ->
  dict_lookup (deref h' merged) n = Some (sdk_declaration decl command).
Proof.
  intros Hnd Hin He Hc. revert h.
  induction entries as [| [name sc] entries IH]; [destruct Hin |].
  intros h Hm Hf. cbn [for_each] in Hf. unfold bind in Hf.
  cbn [map fst] in Hnd. apply NoDup_cons in Hnd as [Hname Hnd].
  destruct (merge_entry merged (name, sc) h) as [[[] | e] h1] eqn:Hstep; [| discriminate].
  destruct Hin as [[= -> ->] | Hin].
  - destruct Hm as [d Hd].
    destruct (merge_entry_enabled merged n decl command h d Hd He Hc) as (h1' & Heq & Hh1).
    rewrite Heq in Hstep. injection Hstep as ->.
    rewrite (for_each_keeps_name _ _ _ _ _ n) with (2 := Hf).
    + unfold deref. rewrite Hh1. simpl. apply dict_lookup_set_eq.
    + intros name' sc' Hin'. left. intros ->.
      apply Hname. apply list_elem_of_In. apply (in_map fst) in Hin'. exact Hin'.
  - apply (IH Hnd Hin h1); [| exact Hf].
    eapply merge_entry_allocated; eauto.
Qed.

(** What a returning call is made of. *)
Lemma merge_mcp_servers_Return existing config (h h' : store) x merged :
  h !! existing = Some x ->
  merge_mcp_servers existing config h = (Return merged, h') ->
  (merged = existing /\ h' = h /\
   (config = [] \/ truthy (get config "mcpServers") = false)) \/
  (exists servers,
      dict_lookup config "mcpServers" = Some (VDict servers) /\ servers <> [] /\
      merged = fresh (dom h) /\
      for_each servers (merge_entry merged) (<[merged := x]> h) = (Return tt, h')).
Proof.
  intros Hx. unfold merge_mcp_servers.
  destruct (truthy (VDict config)) eqn:Hcfg; cbn [negb orb].
  2:{ unfold ret. intros [= <- <-]. left. repeat split. left. now destruct config. }
  destruct (truthy (get config "mcpServers")) eqn:Hs; cbn [negb].
  2:{ unfold ret. intros [= <- <-]. left. auto. }
  unfold bind, copy, lift, ret. rewrite Hx.
  rewrite (dict_item_get _ _ (truthy_is_not_None _ Hs)).
  destruct (get config "mcpServers") as [| | | | | | servers] eqn:Hget;
    cbn [items]; try discriminate.
  destruct (for_each servers _ _) as [[[] | e] h1] eqn:Hf; [| discriminate].
  intros [= <- <-]. right. exists servers.
  repeat split; [| intros ->; discriminate | exact Hf].
  unfold get, dict_get in Hget.
  destruct (dict_lookup config "mcpServers"); [now subst | discriminate].
Qed.

(** X9. An enabled entry of [mcpServers] overrides: when names are not
    repeated and every entry can be processed, the call returns and the
    merged map holds under the entry's name exactly [command], [args] (an
    empty list when the entry has none) and, when truthy, [env]; whatever
    the existing map held under that name, and whatever other keys the
    entry has, are gone. *)
Theorem merge_mcp_servers_overrides_enabled
    (existing : loc) (config : pydict) (h : store) (x servers decl : pydict)
    (n : string) (command : value) :
  h !! existing = Some x ->
  dict_lookup config "mcpServers" = Some (VDict servers) ->
  NoDup (map fst servers) ->
  (forall name sc, In (name, sc) servers -> well_formed_entry sc) ->
  dict_lookup servers n = Some (VDict decl) ->
  truthy (dict_get decl "enabled" (VBool true)) = true ->
  dict_lookup decl "command" = Some command ->
  exists merged h',
    merge_mcp_servers existing config h = (Return merged, h') /\
    dict_lookup (deref h' merged) n = Some (sdk_declaration decl command).
Proof.
  intros Hx Hc Hnd Hwf Hn He Hcmd.
  assert (Hne : servers <> []) by (intros ->; discriminate).
  rewrite (merge_mcp_servers_unfold _ _ _ _ _ Hx Hc Hne). cbv zeta.
  set (merged := fresh (dom h)).
  assert (Hm : is_Some (<[merged := x]> h !! merged)) by (rewrite lookup_insert_eq; eauto).
  destruct (for_each_returns merged servers (<[merged := x]> h) Hm Hwf) as [h' Hf].
  rewrite Hf. exists merged, h'. split; [reflexivity |].
  eapply for_each_sets_enabled; eauto using dict_lookup_In.
Qed.

Lemma two_server_config_well_formed name sc :
  In (name, sc) [("gdrive", VDict gdrive_entry); ("jira", VDict jira_entry)] ->
  well_formed_entry sc.
Proof.
  intros [[= <- <-] | [[= <- <-] | []]]; eexists; (split; [reflexivity |]).
  - intros _. eexists. reflexivity.
  - intros H. discriminate H.
Defined.

Lemma merge_mcp_servers_overrides_enabled_witness :
  exists merged h',
    merge_mcp_servers 1%positive two_server_config sample_store = (Return merged, h') /\
    dict_lookup (deref h' merged) "gdrive" =
      Some (VDict [("command", VStr "uvx"); ("args", VList []);
                   ("env", VDict [("K", VStr "v")])]).
Proof.
  apply (merge_mcp_servers_overrides_enabled 1%positive two_server_config sample_store
           [("gdrive", old_declaration)]
           [("gdrive", VDict gdrive_entry); ("jira", VDict jira_entry)]
           gdrive_entry "gdrive" (VStr "uvx")).
  - reflexivity.
  - reflexivity.
  - repeat constructor; intros H; repeat (inversion H; subst; clear H);
      match goal with H : _ ∈ _ |- _ => inversion H; subst end;
      match goal with H : _ ∈ [] |- _ => inversion H end.
  - exact two_server_config_well_formed.
  - reflexivity.
  - reflexivity.
  - reflexivity.
Defined.

(** X10. A name the configuration's [mcpServers] does not mention keeps, in
    the merged map, what the existing map held under it (nothing, when the
    existing map had nothing). *)
Theorem merge_mcp_servers_keeps_unmentioned
    (existing : loc) (config : pydict) (h h' : store) (x : pydict)
    (n : string) (merged : loc) :
  h !! existing = Some x ->
  (forall servers, dict_lookup config "mcpServers" = Some (VDict servers) ->
                   dict_lookup servers n = None) ->
  merge_mcp_servers existing config h = (Return merged, h') ->
  dict_lookup (deref h' merged) n = dict_lookup x n.
Proof.
  intros Hx Hn Hrun.
  destruct (merge_mcp_servers_Return _ _ _ _ _ _ Hx Hrun)
    as [(-> & -> & _) | (servers & Hc & Hne & -> & Hf)].
  - unfold deref. now rewrite Hx.
  - rewrite (for_each_keeps_name _ _ _ _ _ n) with (2 := Hf).
    + unfold deref. now rewrite lookup_insert_eq.
    + intros name sc Hin. left. intros ->.
      exact (dict_lookup_None_In _ _ _ (Hn servers Hc) Hin).
Qed.

Lemma merge_mcp_servers_keeps_unmentioned_witness :
  dict_lookup
    (deref (snd (merge_mcp_servers 1%positive
                   [("mcpServers", VDict [("jira", VDict [("command", VStr "npx")])])]
                   sample_store))
           2%positive) "gdrive"
  = dict_lookup [("gdrive", old_declaration)] "gdrive".
Proof.
  apply (merge_mcp_servers_keeps_unmentioned 1%positive
           [("mcpServers", VDict [("jira", VDict [("command", VStr "npx")])])]
           sample_store
           (snd (merge_mcp_servers 1%positive
                   [("mcpServers", VDict [("jira", VDict [("command", VStr "npx")])])]
                   sample_store))
           [("gdrive", old_declaration)] "gdrive" 2%positive).
  - reflexivity.
  - intros servers [= <-]. reflexivity.
  - vm_compute. reflexivity.
Defined.

(** A loop over mappings, one of them enabled and without [command], ends
    in [KeyError]. *)
Lemma for_each_missing_command merged entries (h : store) :
  is_Some (h !! merged) ->
  (forall name sc, In (name, sc) entries -> exists decl, sc = VDict decl) ->
  (exists name decl,
      In (name, VDict decl) entries /\
      truthy (dict_get decl "enabled" (VBool true)) = true /\
      dict_lookup decl "command" = None) ->
  exists h', for_each entries (merge_entry merged) h = (Raise KeyError, h').
Proof.
  revert h. induction entries as [| [name sc] entries IH];
    intros h Hm Hmap (bad & bdecl & Hin & Hen & Hcmd); [destruct Hin |].
  destruct (Hmap name sc (or_introl eq_refl)) as [decl ->].
  cbn [for_each]. unfold bind.
  destruct (truthy (dict_get decl "enabled" (VBool true))) eqn:He.
  - destruct (dict_lookup decl "command") as [cmd |] eqn:Hc.
    + destruct Hm as [d Hd].
      destruct (merge_entry_enabled merged name decl cmd h d Hd He Hc) as (h1 & Heq & Hh1).
      rewrite Heq. apply IH.
      * rewrite Hh1. eauto.
      * intros name' sc' Hin'. eapply Hmap. right. exact Hin'.
      * exists bad, bdecl. repeat split; auto.
        destruct Hin as [[= <- <-] | Hin]; [congruence | exact Hin].
    + unfold merge_entry, bind, lift, ret. cbn [attr_get value_item].
      rewrite He. cbn [negb]. unfold dict_item. rewrite Hc. eauto.
  - rewrite (merge_entry_disabled _ _ _ _ He). apply IH.
    + exact Hm.
    + intros name' sc' Hin'. eapply Hmap. right. exact Hin'.
    + exists bad, bdecl. repeat split; auto.
      destruct Hin as [[= <- <-] | Hin]; [congruence | exact Hin].
Qed.

(** X11. When the entries of [mcpServers] are mappings and one that is not
    disabled has no [command], [merge_mcp_servers] raises [KeyError]: the
    exception is not caught, and no merged map is returned. *)
Theorem merge_mcp_servers_missing_command_raises
    (existing : loc) (config : pydict) (h : store) (x servers : pydict) :
  h !! existing = Some x ->
  dict_lookup config "mcpServers" = Some (VDict servers) ->
  (forall name sc, In (name, sc) servers -> exists decl, sc = VDict decl) ->
  (exists name decl,
      In (name, VDict decl) servers /\
      truthy (dict_get decl "enabled" (VBool true)) = true /\
      dict_lookup decl "command" = None) ->
  fst (merge_mcp_servers existing config h) = Raise KeyError.
Proof.
  intros Hx Hc Hmap Hbad.
  assert (Hne : servers <> []).
  { destruct Hbad as (? & ? & Hin & _). intros ->. destruct Hin. }
  rewrite (merge_mcp_servers_unfold _ _ _ _ _ Hx Hc Hne). cbv zeta.
  set (merged := fresh (dom h)).
  destruct (for_each_missing_command merged servers (<[merged := x]> h)) as [h' Hf];
    [rewrite lookup_insert_eq; eauto | exact Hmap | exact Hbad |].
  now rewrite Hf.
Qed.

Lemma merge_mcp_servers_missing_command_raises_witness :
  fst (merge_mcp_servers 1%positive broken_config sample_store) = Raise KeyError.
Proof.
  apply (merge_mcp_servers_missing_command_raises 1%positive broken_config sample_store
           [("gdrive", old_declaration)]
           [("jira", VDict jira_entry); ("slack", VDict [("args", VList [])])]).
  - reflexivity.
  - reflexivity.
  - intros name sc [[= <- <-] | [[= <- <-] | []]]; eauto.
  - exists "slack", [("args", VList [])]. repeat split. right. now left.
Defined.

(** X12. A truthy [mcpServers] that is not a mapping (a non-empty list or
    string, a number) makes [merge_mcp_servers] raise [AttributeError]. *)
Theorem merge_mcp_servers_not_a_mapping_raises
    (existing : loc) (config : pydict) (h : store) (v : value) :
  is_Some (h !! existing) ->
  dict_lookup config "mcpServers" = Some v ->
  truthy v = true ->
  (forall servers, v <> VDict servers) ->
  fst (merge_mcp_servers existing config h) = Raise AttributeError.
Proof.
  intros [x Hx] Hc Ht Hv. unfold merge_mcp_servers.
  assert (Hget : get config "mcpServers" = v).
  { unfold get, dict_get. now rewrite Hc. }
  assert (Hcfg : truthy (VDict config) = true).
  { destruct config; [discriminate | reflexivity]. }
  rewrite Hcfg, Hget, Ht. cbn [negb orb].
  unfold bind, copy, lift. rewrite Hx.
  unfold dict_item. rewrite Hc.
  destruct v; try reflexivity. destruct (Hv d eq_refl).
Qed.

Lemma merge_mcp_servers_not_a_mapping_raises_witness :
  fst (merge_mcp_servers 1%positive [("mcpServers", VList [VStr "gdrive"])] sample_store)
  = Raise AttributeError.
Proof.
  apply (merge_mcp_servers_not_a_mapping_raises 1%positive
           [("mcpServers", VList [VStr "gdrive"])] sample_store (VList [VStr "gdrive"])).
  - exists [("gdrive", old_declaration)]. reflexivity.
  - reflexivity.
  - reflexivity.
  - intros servers H. discriminate H.
Defined.

(** A loop over entries whose declarations the map already holds changes
    nothing. *)
Lemma for_each_already_merged merged entries (h : store) d :
  h !! merged = Some d ->
  (forall name sc, In (name, sc) entries -> well_formed_entry sc) ->
  (forall name decl command,
      In (name, VDict decl) entries ->
      truthy (dict_get decl "enabled" (VBool true)) = true ->
      dict_lookup decl "command" = Some command ->
      dict_lookup d name = Some (sdk_declaration decl command)) ->
  exists h', for_each entries (merge_entry merged) h = (Return tt, h') /\
             h' !! merged = Some d.
Proof.
  revert h. induction entries as [| [name sc] entries IH]; intros h Hd Hwf Hheld.
  - eexists. split; [reflexivity | exact Hd].
  - cbn [for_each]. unfold bind.
    destruct (Hwf name sc (or_introl eq_refl)) as (decl & -> & Hcmd).
    assert (Hstep : exists h1, merge_entry merged (name, VDict decl) h = (Return tt, h1) /\
                               h1 !! merged = Some d).
    { destruct (truthy (dict_get decl "enabled" (VBool true))) eqn:He.
      - destruct (Hcmd eq_refl) as [command Hc].
        destruct (merge_entry_enabled merged name decl command h d Hd He Hc)
          as (h1 & Heq & Hh1).
        exists h1. split; [exact Heq |].
        rewrite Hh1. f_equal. apply dict_set_same.
        apply (Hheld name decl command); auto. now left.
      - exists h. split; [now apply merge_entry_disabled | exact Hd]. }
    destruct Hstep as (h1 & Heq & Hh1). rewrite Heq.
    apply IH; [exact Hh1 | |].
    + intros name' sc' Hin. eapply Hwf. right. exact Hin.
    + intros name' decl' command' Hin. apply Hheld. now right.
Qed.

Lemma for_each_merged_allocated merged entries (h h' : store) res :
  is_Some (h !! merged) ->
  for_each entries (merge_entry merged) h = (res, h') ->
  is_Some (h' !! merged).
Proof.
  revert h. induction entries as [| entry entries IH]; cbn [for_each]; intros h Hm H.
  - unfold ret in H. now simplify_eq.
  - unfold bind in H.
    destruct (merge_entry merged entry h) as [[[] | e] h1] eqn:He.
    + eapply IH; [| exact H]. eapply merge_entry_allocated; eauto.
    + simplify_eq. eapply merge_entry_allocated; eauto.
Qed.

(** X13. Merging is idempotent: when names are not repeated and every
    entry can be processed, merging the same configuration into the merged
    map returns a map with the same items in the same order. *)
Theorem merge_mcp_servers_idempotent
    (existing : loc) (config : pydict) (h : store) (x servers : pydict) :
  h !! existing = Some x ->
  dict_lookup config "mcpServers" = Some (VDict servers) ->
  NoDup (map fst servers) ->
  (forall name sc, In (name, sc) servers -> well_formed_entry sc) ->
  exists merged1 h1 merged2 h2,
    merge_mcp_servers existing config h = (Return merged1, h1) /\
    merge_mcp_servers merged1 config h1 = (Return merged2, h2) /\
    deref h2 merged2 = deref h1 merged1.
Proof.
  intros Hx Hc Hnd Hwf.
  destruct servers as [| s0 servers'] eqn:Hs.
  { (* no servers: both calls return what they were given *)
    exists existing, h, existing, h.
    assert (Hrun : forall l h0, merge_mcp_servers l config h0 = (Return l, h0)).
    { intros l h0. unfold merge_mcp_servers.
      assert (Hget : get config "mcpServers" = VDict []).
      { unfold get, dict_get. now rewrite Hc. }
      rewrite Hget. cbn [truthy negb]. now rewrite orb_true_r. }
    rewrite !Hrun. auto. }
  rewrite <- Hs in *. assert (Hne : servers <> []) by (rewrite Hs; discriminate).
  clear Hs s0 servers'.
  pose proof (merge_mcp_servers_unfold _ _ _ _ _ Hx Hc Hne) as Hrun1. cbv zeta in Hrun1.
  set (merged1 := fresh (dom h)) in Hrun1.
  assert (Hm1 : is_Some (<[merged1 := x]> h !! merged1)) by (rewrite lookup_insert_eq; eauto).
  destruct (for_each_returns merged1 servers (<[merged1 := x]> h) Hm1 Hwf) as [h1 Hf1].
  rewrite Hf1 in Hrun1.
  destruct (for_each_merged_allocated _ _ _ _ _ Hm1 Hf1) as [d1 Hd1].
  pose proof (merge_mcp_servers_unfold _ _ _ _ _ Hd1 Hc Hne) as Hrun2. cbv zeta in Hrun2.
  set (merged2 := fresh (dom h1)) in Hrun2.
  destruct (for_each_already_merged merged2 servers (<[merged2 := d1]> h1) d1)
    as (h2 & Hf2 & Hd2).
  - apply lookup_insert_eq.
  - exact Hwf.
  - intros name decl command Hin He Hcmd.
    pose proof (for_each_sets_enabled merged1 servers _ h1 name decl command
                  Hnd Hin He Hcmd Hm1 Hf1) as Hheld.
    unfold deref in Hheld. now rewrite Hd1 in Hheld.
  - rewrite Hf2 in Hrun2. exists merged1, h1, merged2, h2.
    repeat split; [exact Hrun1 | exact Hrun2 |].
    unfold deref. now rewrite Hd1, Hd2.
Qed.

Lemma merge_mcp_servers_idempotent_witness :
  exists merged1 h1 merged2 h2,
    merge_mcp_servers 1%positive two_server_config sample_store = (Return merged1, h1) /\
    merge_mcp_servers merged1 two_server_config h1 = (Return merged2, h2) /\
    deref h2 merged2 = deref h1 merged1.
Proof.
  apply (merge_mcp_servers_idempotent 1%positive two_server_config sample_store
           [("gdrive", old_declaration)]
           [("gdrive", VDict gdrive_entry); ("jira", VDict jira_entry)]).
  - reflexivity.
  - reflexivity.
  - repeat constructor; intros H; repeat (inversion H; subst; clear H);
      match goal with H : _ ∈ _ |- _ => inversion H; subst end;
      match goal with H : _ ∈ [] |- _ => inversion H end.
  - exact two_server_config_well_formed.
Defined.

(** ** The loader's constructor *)


Lemma drop_while_all {A} (p : A -> bool) l :
  forallb p l = true -> drop_while p l = [].
Proof.
  induction l as [| b l IH]; simpl; [reflexivity |].
  destruct (p b); simpl; [exact IH | discriminate].
Qed.





Lemma rstrip_chars_all p s :
  forallb p (list_ascii_of_string s) = true -> rstrip_chars p s = "".
Proof.
  intros H. unfold rstrip_chars. rewrite drop_while_all; [reflexivity |].
  rewrite forallb_forall in *. intros a Ha. apply H. now apply in_rev.
Qed.



Example init_scenario :
  SDKConfigLoader_init
    {[ "BACKEND_API_URL" := "http://backend:8080//"; "BOT_TOKEN" := "  tok-1 " ]} "s-1" "demo"
  = mkLoader "s-1" "demo" "http://backend:8080" "tok-1".
Proof. vm_compute. reflexivity. Qed.

(** X15. When [BACKEND_API_URL] is unset, empty or made of slashes only,
    [load_configuration] returns [None] without consulting the network:
    the answer is the same whatever the request would do, an interrupt
    included. *)
Theorem load_configuration_without_backend_url
    (http_get : string -> list (string * string) -> outcome (list Byte.byte))
    (decode_utf8 : list Byte.byte -> outcome string)
    (json_loads : string -> outcome value)
    (environ : gmap string string) (session project : string) :
  forallb (Ascii.eqb "/"%char)
          (list_ascii_of_string (getenv environ "BACKEND_API_URL" "")) = true ->
  load_configuration http_get decode_utf8 json_loads
    (SDKConfigLoader_init environ session project) = Return VNone.
Proof.
  intros H. unfold load_configuration, SDKConfigLoader_init. cbn [backend_url].
  unfold rstrip_slash. now rewrite (rstrip_chars_all _ _ H).
Qed.

Lemma load_configuration_without_backend_url_witness :
  load_configuration unreachable_http_get sample_decode_utf8 sample_json_loads
    (SDKConfigLoader_init {[ "BACKEND_API_URL" := "//" ]} "s-1" "demo") = Return VNone
  /\
  load_configuration unreachable_http_get sample_decode_utf8 sample_json_loads
    (SDKConfigLoader_init ∅ "s-1" "demo") = Return VNone.
Proof.
  split.
  - apply (load_configuration_without_backend_url unreachable_http_get sample_decode_utf8
             sample_json_loads {[ "BACKEND_API_URL" := "//" ]} "s-1" "demo").
    vm_compute. reflexivity.
  - apply (load_configuration_without_backend_url unreachable_http_get sample_decode_utf8
             sample_json_loads ∅ "s-1" "demo").
    vm_compute. reflexivity.
Defined.


Example request_headers_scenario :
  request_headers (SDKConfigLoader_init {[ "BOT_TOKEN" := " tok-1 " ]} "s-1" "demo")
    = [("Authorization", "Bearer tok-1")] /\
  request_headers (SDKConfigLoader_init {[ "BOT_TOKEN" := "   " ]} "s-1" "demo") = [].
Proof. vm_compute. split; reflexivity. Qed.

(** ** [load_configuration]: answers it turns down *)

(** X17. A response that decodes and parses is still turned into [None]
    when the log line cannot be evaluated on it: when the document is not a
    mapping (a list, a string, a number, [null]), and when it is a mapping
    whose [allowedTools] has no length (a null, a number, a boolean). *)
Theorem load_configuration_rejects_unloggable
    (http_get : string -> list (string * string) -> outcome (list Byte.byte))
    (decode_utf8 : list Byte.byte -> outcome string)
    (json_loads : string -> outcome value)
    (self : SDKConfigLoader) (body : list Byte.byte) (data : string) (config : value) :
  http_get (configuration_url self) (request_headers self) = Return body ->
  decode_utf8 body = Return data ->
  json_loads data = Return config ->
  (forall d, config = VDict d ->
             exists e, py_len (dict_get d "allowedTools" (VList [])) = Raise e) ->
  load_configuration http_get decode_utf8 json_loads self = Return VNone.
Proof.
  intros Hh Hd Hj Hbad. unfold load_configuration.
  destruct (negb (truthy (VStr (backend_url self)))); [reflexivity |].
  unfold load_configuration_try. rewrite Hh. cbn [obind]. rewrite Hd. cbn [obind].
  rewrite Hj. cbn [obind].
  destruct config as [| | | | | | d]; try reflexivity.
  cbn [attr_get obind].
  destruct (Hbad d eq_refl) as [e He]. rewrite He. cbn [obind].
  destruct (dict_get d "allowedTools" (VList [])); simpl in He; try discriminate;
    injection He as <-; reflexivity.
Qed.

Lemma load_configuration_rejects_unloggable_witness :
  load_configuration sample_http_get sample_decode_utf8 null_tools_json_loads
    (SDKConfigLoader_init sample_environ "s-1" "demo") = Return VNone.
Proof.
  apply (load_configuration_rejects_unloggable
           sample_http_get sample_decode_utf8 null_tools_json_loads
           (SDKConfigLoader_init sample_environ "s-1" "demo")
           (list_byte_of_string sample_body) sample_body
           (VDict [("model", VStr "opus"); ("allowedTools", VNone)])).
  - reflexivity.
  - reflexivity.
  - reflexivity.
  - intros d [= <-]. exists TypeError. reflexivity.
Defined.

(** ** [load_and_apply_sdk_config] *)

(** With a library that raises only [Exception]s, [load_configuration]
    returns, and what it returns is [None] or a mapping. *)
Lemma load_configuration_returns
    (http_get : string -> list (string * string) -> outcome (list Byte.byte))
    (decode_utf8 : list Byte.byte -> outcome string)
    (json_loads : string -> outcome value) (self : SDKConfigLoader) :
  (forall url hs e, http_get url hs = Raise e -> is_Exception e = true) ->
  (forall b e, decode_utf8 b = Raise e -> is_Exception e = true) ->
  (forall s e, json_loads s = Raise e -> is_Exception e = true) ->
  load_configuration http_get decode_utf8 json_loads self = Return VNone \/
  exists d,
    load_configuration http_get decode_utf8 json_loads self = Return (VDict d) /\
    load_configuration_try http_get decode_utf8 json_loads self = Return (VDict d).
Proof.
  intros Hh Hd Hj. unfold load_configuration.
  destruct (negb (truthy (VStr (backend_url self)))); [now left |].
  destruct (load_configuration_try http_get decode_utf8 json_loads self) as [v | e] eqn:Htry.
  - destruct (load_configuration_try_Return _ _ _ _ _ Htry) as [d ->].
    right. exists d. split; reflexivity.
  - left. unfold try_except.
    now rewrite (load_configuration_try_Raise _ _ _ _ _ Hh Hd Hj Htry).
Qed.

(** X18. With a library that raises only [Exception]s,
    [load_and_apply_sdk_config] never raises: when no configuration could
    be loaded (or an empty mapping was) the options are returned as they
    were, and when a mapping was loaded the result is what
    [apply_to_options] makes of the options with that mapping. *)
Theorem load_and_apply_sdk_config_never_raises
    (http_get : string -> list (string * string) -> outcome (list Byte.byte))
    (decode_utf8 : list Byte.byte -> outcome string)
    (json_loads : string -> outcome value)
    (float_repr : float -> string) (str_repr : string -> string)
    (environ : gmap string string) (options : ClaudeAgentOptions)
    (session project : string) :
  (forall url hs e, http_get url hs = Raise e -> is_Exception e = true) ->
  (forall b e, decode_utf8 b = Raise e -> is_Exception e = true) ->
  (forall s e, json_loads s = Raise e -> is_Exception e = true) ->
  let loaded := load_configuration http_get decode_utf8 json_loads
                  (SDKConfigLoader_init environ session project) in
  exists o',
    load_and_apply_sdk_config http_get decode_utf8 json_loads float_repr str_repr
      environ options session project = Return o' /\
    (loaded = Return VNone -> o' = options) /\
    (loaded = Return (VDict []) -> o' = options) /\
    (forall d, loaded = Return (VDict d) ->
               apply_to_options float_repr str_repr options d = Return o').
Proof.
  intros Hh Hd Hj loaded. unfold load_and_apply_sdk_config. fold loaded.
  destruct (load_configuration_returns http_get decode_utf8 json_loads
              (SDKConfigLoader_init environ session project) Hh Hd Hj)
    as [Hnone | (d & Hsome & _)]; fold loaded in Hnone || fold loaded in Hsome.
  - rewrite Hnone. cbn [obind truthy]. exists options.
    repeat split; try reflexivity; intros; discriminate.
  - rewrite Hsome. cbn [obind].
    destruct d as [| kv d'].
    + cbn [truthy]. exists options. repeat split; try discriminate.
      intros d [= <-]. reflexivity.
    + cbn [truthy apply_to_options_value].
      rewrite apply_to_options_eq. eexists. split; [reflexivity |].
      repeat split; try discriminate.
      intros d [= <-]. now rewrite apply_to_options_eq.
Qed.

Lemma sample_decode_utf8_Exception b e :
  sample_decode_utf8 b = Raise e -> is_Exception e = true.
Proof. unfold sample_decode_utf8. discriminate. Defined.

Lemma load_and_apply_sdk_config_never_raises_witness :
  exists o',
    load_and_apply_sdk_config sample_http_get sample_decode_utf8 sample_json_loads
      sample_float_repr sample_str_repr sample_environ
      (set_max_tokens (VInt 4096) default_options) "s-1" "demo" = Return o'.
Proof.
  destruct (load_and_apply_sdk_config_never_raises
              sample_http_get sample_decode_utf8 sample_json_loads
              sample_float_repr sample_str_repr sample_environ
              (set_max_tokens (VInt 4096) default_options) "s-1" "demo"
              sample_http_get_Exception sample_decode_utf8_Exception
              sample_json_loads_Exception) as (o' & Hrun & _).
  exists o'. exact Hrun.
Defined.

Example load_and_apply_scenario :
  load_and_apply_sdk_config sample_http_get sample_decode_utf8 sample_json_loads
    sample_float_repr sample_str_repr sample_environ
    (set_max_tokens (VInt 4096) default_options) "s-1" "demo"
  = Return (set_max_tokens (VInt 4096) default_options).
Proof. vm_compute. reflexivity. Qed.
